(** * Task API: a shallow embedding of taskapp (serializers, services, views)

    The development follows the three source modules of the application:
    [serializers.py] (field validation), [services.py] (operations on the
    store) and [views.py] (request handlers).  Python values, the ORM and
    the serializer machinery the code calls into are modelled first. *)

From Stdlib Require Import List String Ascii ZArith Bool Lia.
From Stdlib Require Import Sorting.Sorted Sorting.Permutation.
From Stdlib Require Import DecimalString.
Import ListNotations.
Open Scope string_scope.
Open Scope Z_scope.

(** ** Python strings

    A [str] is a [string]; each character stands for one code point in the
    range U+0000..U+00FF. *)

Module Py.

(** [str.isspace] on one code point, for the code points below 256:
    TAB..CR, FS..US, SPACE, NEL and NBSP. *)
Definition isspace (c : ascii) : bool :=
  let n := nat_of_ascii c in
  ((9 <=? n) && (n <=? 13))%nat || ((28 <=? n) && (n <=? 32))%nat
  || (n =? 133)%nat || (n =? 160)%nat.

Fixpoint lstrip (s : string) : string :=
  match s with
  | EmptyString => EmptyString
  | String c s' => if isspace c then lstrip s' else s
  end.

Fixpoint rstrip (s : string) : string :=
  match s with
  | EmptyString => EmptyString
  | String c s' =>
      match rstrip s' with
      | EmptyString => if isspace c then EmptyString else String c EmptyString
      | r => String c r
      end
  end.

(** [s.strip()] *)
Definition strip (s : string) : string := rstrip (lstrip s).

(** every character of [s] is whitespace (true of the empty string) *)
Fixpoint all_space (s : string) : bool :=
  match s with
  | EmptyString => true
  | String c s' => isspace c && all_space s'
  end.

(** truth value of a [str]: [bool(s)] *)
Definition truthy (s : string) : bool :=
  match s with EmptyString => false | _ => true end.

(** [str(n)] for an [int] *)
Definition str_of_int (n : Z) : string := NilZero.string_of_int (Z.to_int n).

(** [x in l] for a list of strings *)
Definition str_in (x : string) (l : list string) : bool :=
  existsb (String.eqb x) l.

End Py.

(** ** Stripping, for any kind of character

    [str.strip()] over a sequence of characters and a whitespace test:
    the same three functions as in [Py], for texts whose characters need
    not fit the 8-bit range. *)
Module Text.
Section Strip.

Context {A : Type} (sp : A -> bool).

Fixpoint lstrip (l : list A) : list A :=
  match l with
  | [] => []
  | c :: l' => if sp c then lstrip l' else l
  end.

Fixpoint rstrip (l : list A) : list A :=
  match l with
  | [] => []
  | c :: l' =>
      match rstrip l' with
      | [] => if sp c then [] else [c]
      | r => c :: r
      end
  end.

Definition strip (l : list A) : list A := rstrip (lstrip l).

Fixpoint last_error (l : list A) : option A :=
  match l with
  | [] => None
  | [c] => Some c
  | _ :: l' => last_error l'
  end.

(** [t] is [l] without its surrounding whitespace: [l] is [t] between two
    runs of whitespace, and [t] neither starts nor ends with whitespace. *)
Definition stripped_of (l t : list A) : Prop :=
  exists a b,
    l = (a ++ t ++ b)%list /\ forallb sp a = true /\ forallb sp b = true /\
    (forall c, hd_error t = Some c -> sp c = false) /\
    (forall c, last_error t = Some c -> sp c = false).

End Strip.
End Text.

(** ** serializers.py: the field-level validators of [TaskSerializer] *)

(** Outcome of a [validate_<field>] method: the value passed on, or the
    message of the [serializers.ValidationError] it raises. *)
Inductive validated (A : Type) : Type :=
| Valid (a : A)
| Invalid (msg : string).
Arguments Valid {A} a.
Arguments Invalid {A} msg.

Definition validate_title (value : string) : validated string :=
  if negb (Py.truthy value) || negb (Py.truthy (Py.strip value))
  then Invalid "Title cannot be empty"
  else Valid (Py.strip value).

Definition valid_priorities : list string := ["low"; "medium"; "high"].
Definition valid_statuses : list string := ["pending"; "in_progress"; "completed"].

Definition validate_priority (value : string) : validated string :=
  if negb (Py.str_in value valid_priorities)
  then Invalid "Priority must be one of: ['low', 'medium', 'high']"
  else Valid value.

Definition validate_status (value : string) : validated string :=
  if negb (Py.str_in value valid_statuses)
  then Invalid "Status must be one of: ['pending', 'in_progress', 'completed']"
  else Valid value.

(** [validate_title] over texts of arbitrary code points. *)
Module Unicode.

(** A [str] as the sequence of its code points. *)
Definition str : Type := list N.

(** [str.isspace] on one code point: the whitespace of the Unicode
    character database. *)
Definition isspace (c : N) : bool :=
  (((9 <=? c) && (c <=? 13)) || ((28 <=? c) && (c <=? 32))
   || (c =? 133) || (c =? 160) || (c =? 5760)
   || ((8192 <=? c) && (c <=? 8202))
   || (c =? 8232) || (c =? 8233) || (c =? 8239) || (c =? 8287)
   || (c =? 12288))%N.

(** truth value of a [str] *)
Definition truthy (s : str) : bool :=
  match s with [] => false | _ => true end.

Definition validate_title (value : str) : validated str :=
  if negb (truthy value) || negb (truthy (Text.strip isspace value))
  then Invalid "Title cannot be empty"
  else Valid (Text.strip isspace value).

(** The code points of a text whose characters are all below 256. *)
Definition code_points (s : string) : str :=
  map N_of_ascii (list_ascii_of_string s).

End Unicode.

(** ** Python values and dictionaries

    The values that occur in request and response data. *)
#[warnings="-register-all"]
Inductive value : Type :=
| VNone
| VBool (b : bool)
| VInt (n : Z)
| VStr (s : string)
| VDatetime (t : Z)
| VList (l : list value)
| VDict (d : list (string * value)).

(** A [dict] with [str] keys, as its items in insertion order; keys are
    looked up first match. *)
Definition dict : Type := list (string * value).

Fixpoint dict_get (k : string) (d : dict) : option value :=
  match d with
  | [] => None
  | (k', v) :: d' => if String.eqb k k' then Some v else dict_get k d'
  end.

Definition dict_keys (d : dict) : list string := map fst d.

(** ** The Task model and the store *)

(** Modelled from the spec: taskapp/models.py (the [Task] model) is not
    among the sources.  The record has the eight columns of the spec's data
    model; timestamps are instants on an integer time line, [due_date] is
    nullable. *)
Record Task : Type := mkTask {
  id : Z;
  title : string;
  description : string;
  priority : string;
  status : string;
  created_at : Z;
  updated_at : Z;
  due_date : option Z
}.

(** The table of Task rows in table order, and the next value of the
    auto-increment primary key. *)
Record Store : Type := mkStore {
  rows : list Task;
  next_id : Z
}.

(** Primary keys are unique. *)
Definition pk_unique (st : Store) : Prop := NoDup (map id (rows st)).

(** Every stored row carries a priority and a status of the enumerations. *)
Definition choices_ok (st : Store) : Prop :=
  forall t, In t (rows st) ->
    Py.str_in (priority t) valid_priorities = true /\
    Py.str_in (status t) valid_statuses = true.

Module ORM.

(** [Task.objects.all()]: the rows in table order (the spec describes no
    default ordering of the model). *)
Definition all (st : Store) : list Task := rows st.

(** [qs.filter(status=v)], [qs.filter(priority=v)], [qs.filter(id__in=ids)] *)
Definition filter_status (v : string) (qs : list Task) : list Task :=
  filter (fun t => String.eqb (status t) v) qs.
Definition filter_priority (v : string) (qs : list Task) : list Task :=
  filter (fun t => String.eqb (priority t) v) qs.
Definition filter_status_in (vs : list string) (qs : list Task) : list Task :=
  filter (fun t => Py.str_in (status t) vs) qs.
Definition id_in (ids : list Z) (t : Task) : bool :=
  existsb (Z.eqb (id t)) ids.
Definition filter_id_in (ids : list Z) (qs : list Task) : list Task :=
  filter (id_in ids) qs.

(** [qs.order_by('-created_at')]: newest first; rows created at the same
    instant keep their relative order. *)
Fixpoint insert_desc (t : Task) (qs : list Task) : list Task :=
  match qs with
  | [] => [t]
  | u :: qs' =>
      if created_at u <=? created_at t then t :: u :: qs'
      else u :: insert_desc t qs'
  end.

Fixpoint order_by_created_desc (qs : list Task) : list Task :=
  match qs with
  | [] => []
  | t :: qs' => insert_desc t (order_by_created_desc qs')
  end.

(** [Task.objects.get(id=pk)]: the row, or [None] for [Task.DoesNotExist] *)
Definition get (pk : Z) (qs : list Task) : option Task :=
  find (fun t => Z.eqb (id t) pk) qs.

(** [instance.save()] on a row that exists: UPDATE ... WHERE id = pk *)
Definition update_row (t : Task) (st : Store) : Store :=
  mkStore (map (fun r => if Z.eqb (id r) (id t) then t else r) (rows st))
          (next_id st).

(** [instance.delete()]: DELETE ... WHERE id = pk *)
Definition delete_row (t : Task) (st : Store) : Store :=
  mkStore (filter (fun r => negb (Z.eqb (id r) (id t))) (rows st))
          (next_id st).

(** INSERT of a new row under the next primary key; returns the row as
    stored. *)
Definition insert_row (t : Task) (st : Store) : Task * Store :=
  let t' := mkTask (next_id st) (title t) (description t) (priority t)
                   (status t) (created_at t) (updated_at t) (due_date t) in
  (t', mkStore (rows st ++ [t']) (next_id st + 1)).

End ORM.

(** ** The serializer machinery TaskSerializer inherits

    Errors raised by the framework's own checks are identified by their
    error code; errors raised by the [validate_<field>] methods carry the
    message of the source. *)
Inductive error_detail : Type :=
| ErrCode (code : string)
| ErrMessage (msg : string).

Inductive field_kind : Type :=
| IntegerField
| CharField (allow_blank : bool) (max_length : option nat)
| ChoiceField (choices : list string)
| DateTimeField.

Record field : Type := mkField {
  field_name : string;
  kind : field_kind;
  read_only : bool;
  required : bool;
  allow_null : bool
}.

(** Result of running one field over the incoming data. *)
Inductive field_result : Type :=
| FValue (v : value)
| FSkip
| FError (errs : list error_detail).

(** [class Meta] of [TaskSerializer] *)
Module Meta.
Definition fields : list string :=
  ["id"; "title"; "description"; "priority"; "status";
   "created_at"; "updated_at"; "due_date"].
Definition read_only_fields : list string := ["id"; "created_at"; "updated_at"].
End Meta.

(** Modelled from the spec: the column declarations of taskapp/models.py are
    missing.  Per the spec's data model (and the defaults the tests read
    back): [title] is a required text of at most 200 characters;
    [description] may be blank; [priority] and [status] are choice columns
    with defaults, [due_date] is a nullable timestamp; [id] and the two
    timestamps are generated by the server. *)
Definition model_field (name : string) : field_kind * bool * bool :=
  if String.eqb name "id" then (IntegerField, false, false)
  else if String.eqb name "title" then (CharField false (Some 200%nat), true, false)
  else if String.eqb name "description" then (CharField true None, false, false)
  else if String.eqb name "priority" then (ChoiceField valid_priorities, false, false)
  else if String.eqb name "status" then (ChoiceField valid_statuses, false, false)
  else if String.eqb name "due_date" then (DateTimeField, false, true)
  else (DateTimeField, false, false).

(** The serializer field built for a name of [Meta.fields]. *)
Definition build_field (name : string) : field :=
  let '(k, req, null) := model_field name in
  let ro := Py.str_in name Meta.read_only_fields in
  mkField name k ro (if ro then false else req) null.

Definition serializer_fields : list field := map build_field Meta.fields.

Definition writable_fields : list field :=
  filter (fun f => negb (read_only f)) serializer_fields.

(** [getattr(self, 'validate_' + field_name, None)] *)
Definition validate_method (name : string) : option (string -> validated string) :=
  if String.eqb name "title" then Some validate_title
  else if String.eqb name "priority" then Some validate_priority
  else if String.eqb name "status" then Some validate_status
  else None.

(** Does the string contain the NUL character? *)
Fixpoint has_nul (s : string) : bool :=
  match s with
  | EmptyString => false
  | String c s' => (nat_of_ascii c =? 0)%nat || has_nul s'
  end.

(** Exceptions the application raises or lets through. *)
Inductive exn : Type :=
| ValidationError (errors : list (string * list error_detail))
| DjangoValidationError (msg : string)
| Http404.

(** A small instance of what the application takes from its libraries, for
    the worked examples: instants are whole seconds, written in decimal. *)
Module Epoch.
Definition parse_datetime (s : string) : option Z :=
  option_map Z.of_int (NilZero.int_of_string s).
Definition isoformat (t : Z) : string := Py.str_of_int t.
Definition str_of_exn (e : exn) : string :=
  match e with
  | ValidationError _ => "ValidationError"
  | DjangoValidationError msg => msg
  | Http404 => "Http404"
  end.
End Epoch.

(** ** Stores of the test suite *)
Module Fixtures.

(** [TaskAPITestCase.setUp]: one task. *)
Definition existing_task : Task :=
  mkTask 1 "Existing Task" "Existing Description" "medium" "pending" 10 10 None.
Definition existing : Store := mkStore [existing_task] 2.

(** [TaskBusinessLogicAPITestCase.setUp]: the five-task seed. *)
Definition seed5 : Store :=
  mkStore
    [mkTask 1 "High Priority 1" "" "high" "pending" 1 1 None;
     mkTask 2 "High Priority 2" "" "high" "in_progress" 2 2 None;
     mkTask 3 "Medium Priority" "" "medium" "pending" 3 3 None;
     mkTask 4 "Low Priority" "" "low" "completed" 4 4 None;
     mkTask 5 "Completed High" "" "high" "completed" 5 5 None]
    6.

End Fixtures.

(** A call returns a result or raises; either way it leaves a store. *)
Inductive outcome (A : Type) : Type :=
| Returns (a : A) (st : Store)
| Raises (e : exn) (st : Store).
Arguments Returns {A} a st.
Arguments Raises {A} e st.

Section App.

(** What the application takes from its libraries as given: the parser of
    date-time text, the ISO-8601 printer, and [str(e)] of an exception. *)
Variable parse_datetime : string -> option Z.
Variable isoformat : Z -> string.
Variable str_of_exn : exn -> string.

(** [field.to_internal_value(data)] followed by [field.run_validators].
    The only integer field of the serializer, [id], is read-only and never
    runs on input. *)
Definition to_internal_value (f : field) (data : value) : field_result :=
  match kind f with
  | IntegerField =>
      match data with
      | VInt n => FValue (VInt n)
      | _ => FError [ErrCode "invalid"]
      end
  | CharField _ max_length =>
      let checked (s : string) :=
        let too_long :=
          match max_length with
          | Some m => if (m <? String.length s)%nat then [ErrCode "max_length"] else []
          | None => []
          end in
        let nul := if has_nul s then [ErrCode "null_characters_not_allowed"] else [] in
        match (too_long ++ nul)%list with
        | [] => FValue (VStr s)
        | errs => FError errs
        end in
      match data with
      | VStr s => checked (Py.strip s)
      | VInt n => checked (Py.strip (Py.str_of_int n))
      | _ => FError [ErrCode "invalid"]
      end
  | ChoiceField choices =>
      match data with
      | VStr s => if Py.str_in s choices then FValue (VStr s)
                  else FError [ErrCode "invalid_choice"]
      | _ => FError [ErrCode "invalid_choice"]
      end
  | DateTimeField =>
      match data with
      | VDatetime t => FValue (VDatetime t)
      | VStr s =>
          match parse_datetime s with
          | Some t => FValue (VDatetime t)
          | None => FError [ErrCode "invalid"]
          end
      | _ => FError [ErrCode "invalid"]
      end
  end.

(** [field.validate_empty_values] and the rest of [field.run_validation]:
    a missing key is skipped on a partial update, fails a required field,
    and is skipped otherwise (no field here declares a default); [None] is
    kept by a nullable field and fails the others. *)
Definition run_empty_checks (partial : bool) (f : field) (data : option value)
  : field_result :=
  match data with
  | None =>
      if partial then FSkip
      else if required f then FError [ErrCode "required"]
      else FSkip
  | Some VNone =>
      if allow_null f then FValue VNone else FError [ErrCode "null"]
  | Some v => to_internal_value f v
  end.

(** [field.run_validation(data)].  A text field tests a blank string before
    anything else. *)
Definition run_validation (partial : bool) (f : field) (data : option value)
  : field_result :=
  match kind f, data with
  | CharField allow_blank _, Some (VStr s) =>
      if Py.all_space s
      then if allow_blank then FValue (VStr "") else FError [ErrCode "blank"]
      else run_empty_checks partial f data
  | _, _ => run_empty_checks partial f data
  end.

(** The body of the loop of [Serializer.to_internal_value] for one field:
    the field's own validation, then the [validate_<field>] method when the
    serializer has one.  The three methods of TaskSerializer belong to
    fields that are not nullable, so the value they receive is a [str]. *)
Definition validate_field (partial : bool) (data : dict) (f : field)
  : field_result :=
  match run_validation partial f (dict_get (field_name f) data) with
  | FValue (VStr s) =>
      match validate_method (field_name f) with
      | Some m =>
          match m s with
          | Valid s' => FValue (VStr s')
          | Invalid msg => FError [ErrMessage msg]
          end
      | None => FValue (VStr s)
      end
  | r => r
  end.

(** [serializer.errors]: field name to error list, in field order. *)
Definition error_dict : Type := list (string * list error_detail).

(** The loop itself: errors and validated values are collected field by
    field, in the order of the writable fields. *)
Fixpoint collect (partial : bool) (data : dict) (fs : list field)
  : error_dict * dict :=
  match fs with
  | [] => ([], [])
  | f :: fs' =>
      let '(errs, ret) := collect partial data fs' in
      match validate_field partial data f with
      | FValue v => (errs, (field_name f, v) :: ret)
      | FSkip => (errs, ret)
      | FError e => ((field_name f, e) :: errs, ret)
      end
  end.

(** [serializer.is_valid()]: the validated data, or the errors. *)
Definition is_valid (partial : bool) (data : dict) : error_dict + dict :=
  match collect partial data writable_fields with
  | ([], ret) => inr ret
  | (errs, _) => inl errs
  end.

(** [setattr(instance, attr, value)] for a validated value. *)
Definition setattr (t : Task) (attr : string) (v : value) : Task :=
  match v with
  | VStr s =>
      if String.eqb attr "title" then
        mkTask (id t) s (description t) (priority t) (status t)
               (created_at t) (updated_at t) (due_date t)
      else if String.eqb attr "description" then
        mkTask (id t) (title t) s (priority t) (status t)
               (created_at t) (updated_at t) (due_date t)
      else if String.eqb attr "priority" then
        mkTask (id t) (title t) (description t) s (status t)
               (created_at t) (updated_at t) (due_date t)
      else if String.eqb attr "status" then
        mkTask (id t) (title t) (description t) (priority t) s
               (created_at t) (updated_at t) (due_date t)
      else t
  | VDatetime d =>
      if String.eqb attr "due_date" then
        mkTask (id t) (title t) (description t) (priority t) (status t)
               (created_at t) (updated_at t) (Some d)
      else t
  | VNone =>
      if String.eqb attr "due_date" then
        mkTask (id t) (title t) (description t) (priority t) (status t)
               (created_at t) (updated_at t) None
      else t
  | _ => t
  end.

(** [getattr(instance, name)] for the names of [Meta.fields]. *)
Definition getattr (t : Task) (name : string) : value :=
  if String.eqb name "id" then VInt (id t)
  else if String.eqb name "title" then VStr (title t)
  else if String.eqb name "description" then VStr (description t)
  else if String.eqb name "priority" then VStr (priority t)
  else if String.eqb name "status" then VStr (status t)
  else if String.eqb name "created_at" then VDatetime (created_at t)
  else if String.eqb name "updated_at" then VDatetime (updated_at t)
  else if String.eqb name "due_date" then
    match due_date t with Some d => VDatetime d | None => VNone end
  else VNone.

(** [for attr, value in validated_data.items(): setattr(instance, attr, value)] *)
Definition set_all (t : Task) (validated_data : dict) : Task :=
  fold_left (fun acc kv => setattr acc (fst kv) (snd kv)) validated_data t.

(** Modelled from the spec: the missing model refreshes [updated_at] on
    every [save()] and leaves [created_at] as it is. *)
Definition touch (now : Z) (t : Task) : Task :=
  mkTask (id t) (title t) (description t) (priority t) (status t)
         (created_at t) now (due_date t).

(** The instance after [ModelSerializer.update] has set the validated
    entries and [save()] has refreshed the timestamp. *)
Definition updated (now : Z) (validated_data : dict) (instance : Task) : Task :=
  touch now (set_all instance validated_data).

(** [serializer.save()] with an instance: [ModelSerializer.update]. *)
Definition save_update (now : Z) (instance : Task) (validated_data : dict)
  (st : Store) : Task * Store :=
  let t := updated now validated_data instance in
  (t, ORM.update_row t st).

(** Modelled from the spec: the column defaults of the missing model, as a
    new instance has them before the validated data is set; both timestamps
    are the creation time. *)
Definition new_instance (now : Z) : Task :=
  mkTask 0 "" "" "medium" "pending" now now None.

(** [serializer.save()] without an instance: [ModelSerializer.create]. *)
Definition save_create (now : Z) (validated_data : dict) (st : Store)
  : Task * Store :=
  ORM.insert_row (set_all (new_instance now) validated_data) st.

(** [field.to_representation] of an attribute; [None] is passed through. *)
Definition represent (f : field) (v : value) : value :=
  match kind f, v with
  | DateTimeField, VDatetime t => VStr (isoformat t)
  | _, _ => v
  end.

(** [serializer.data] for one instance: one entry per field of
    [Meta.fields]. *)
Definition to_representation (t : Task) : dict :=
  map (fun f => (field_name f, represent f (getattr t (field_name f))))
      serializer_fields.

(** [serializer.data] with [many=True]. *)
Definition many_data (ts : list Task) : value :=
  VList (map (fun t => VDict (to_representation t)) ts).

(** [serializer.errors] as response data.  An error of the framework's own
    checks is written as its error code, which stands for the message text
    the framework sends in its place; the keys and the number of entries
    are those of the response. *)
Definition detail_value (e : error_detail) : value :=
  match e with
  | ErrCode c => VStr c
  | ErrMessage m => VStr m
  end.
Definition errors_value (errs : error_dict) : value :=
  VDict (map (fun ke => (fst ke, VList (map detail_value (snd ke)))) errs).

(** ** services.py: the static methods of [TaskService] *)

(** [@transaction.atomic]: what the body wrote is rolled back when it
    raises. *)
Definition atomic {A : Type} (body : Store -> outcome A) (st : Store)
  : outcome A :=
  match body st with
  | Returns a st' => Returns a st'
  | Raises e _ => Raises e st
  end.

Definition create_task (now : Z) (data : dict) (st : Store) : outcome Task :=
  match is_valid false data with
  | inl errs => Raises (ValidationError errs) st
  | inr vd => let '(t, st') := save_create now vd st in Returns t st'
  end.

Definition update_task (now : Z) (task_id : Z) (data : dict) (st : Store)
  : outcome Task :=
  match ORM.get task_id (ORM.all st) with
  | None =>
      Raises (DjangoValidationError
                ("Task with id " ++ Py.str_of_int task_id ++ " not found")) st
  | Some task =>
      match is_valid true data with
      | inl errs => Raises (ValidationError errs) st
      | inr vd => let '(t, st') := save_update now task vd st in Returns t st'
      end
  end.

Definition delete_task (task_id : Z) (st : Store) : outcome bool :=
  match ORM.get task_id (ORM.all st) with
  | Some task => Returns true (ORM.delete_row task st)
  | None =>
      Raises (DjangoValidationError
                ("Task with id " ++ Py.str_of_int task_id ++ " not found")) st
  end.

Definition get_tasks_by_status (status : string) (st : Store) : list Task :=
  ORM.order_by_created_desc (ORM.filter_status status (ORM.all st)).

Definition get_high_priority_tasks (st : Store) : list Task :=
  ORM.order_by_created_desc
    (ORM.filter_status_in ["pending"; "in_progress"]
       (ORM.filter_priority "high" (ORM.all st))).

(** [Count('id', filter=Q(...))]: one pass over the rows. *)
Definition count (q : Task -> bool) (qs : list Task) : Z :=
  fold_left (fun n t => if q t then n + 1 else n) qs 0.

Definition get_task_statistics (st : Store) : dict :=
  let qs := ORM.all st in
  [("total", VInt (count (fun _ => true) qs));
   ("pending", VInt (count (fun t => String.eqb (status t) "pending") qs));
   ("in_progress", VInt (count (fun t => String.eqb (status t) "in_progress") qs));
   ("completed", VInt (count (fun t => String.eqb (status t) "completed") qs));
   ("high_priority", VInt (count (fun t => String.eqb (priority t) "high") qs))].

(** [QuerySet.update(status=new_status)] writes the column on the matching
    rows and returns their number. *)
Definition bulk_update_status (task_ids : list Z) (new_status : string)
  : Store -> outcome Z :=
  atomic (fun st =>
    let hit := ORM.id_in task_ids in
    Returns (Z.of_nat (List.length (filter hit (rows st))))
      (mkStore
         (map (fun t =>
                 if hit t then
                   mkTask (id t) (title t) (description t) (priority t)
                          new_status (created_at t) (updated_at t) (due_date t)
                 else t) (rows st))
         (next_id st))).

(** The [for task in tasks] loop of [bulk_update_tasks]. *)
Fixpoint bulk_update_loop (now : Z) (update_data : dict) (tasks : list Task)
  (updated_tasks : list Task) (st : Store) : outcome (list Task) :=
  match tasks with
  | [] => Returns updated_tasks st
  | task :: rest =>
      match is_valid true update_data with
      | inl errs => Raises (ValidationError errs) st
      | inr vd =>
          let '(updated_task, st') := save_update now task vd st in
          bulk_update_loop now update_data rest
            (updated_tasks ++ [updated_task])%list st'
      end
  end.

Definition bulk_update_tasks (now : Z) (task_ids : list Z) (update_data : dict)
  : Store -> outcome (list Task) :=
  atomic (fun st =>
    bulk_update_loop now update_data
      (ORM.filter_id_in task_ids (ORM.all st)) [] st).

(** ** views.py *)

Record Request : Type := mkRequest {
  GET_status : option string;     (* request.GET.get('status') *)
  GET_priority : option string;   (* request.GET.get('priority') *)
  data : dict                     (* request.data *)
}.

Record Response : Type := mkResponse {
  response_data : value;
  status_code : Z
}.

Definition HTTP_200_OK : Z := 200.
Definition HTTP_201_CREATED : Z := 201.
Definition HTTP_204_NO_CONTENT : Z := 204.
Definition HTTP_400_BAD_REQUEST : Z := 400.
Definition HTTP_404_NOT_FOUND : Z := 404.

(** [if v:] on the result of [QueryDict.get]: a missing key and the empty
    string are both false. *)
Definition supplied (v : option string) : option string :=
  match v with
  | Some s => if Py.truthy s then Some s else None
  | None => None
  end.

Definition simple_create_task (now : Z) (request : Request) (st : Store)
  : Response * Store :=
  match create_task now (data request) st with
  | Returns task st' =>
      (mkResponse
         (VDict [("id", getattr task "id");
                 ("title", getattr task "title");
                 ("description", getattr task "description");
                 ("priority", getattr task "priority");
                 ("status", getattr task "status");
                 ("created_at", getattr task "created_at");
                 ("updated_at", getattr task "updated_at");
                 ("due_date", getattr task "due_date");
                 ("message", VStr "Task created successfully!")])
         201, st')
  | Raises e st' =>
      (mkResponse
         (VDict [("error", VStr (str_of_exn e));
                 ("received_data", VDict (data request));
                 ("message", VStr "Task creation failed")])
         400, st')
  end.

Definition TaskViewSet_get_queryset (request : Request) (st : Store)
  : list Task :=
  let queryset := ORM.all st in
  let queryset :=
    match supplied (GET_status request) with
    | Some status_filter => ORM.filter_status status_filter queryset
    | None => queryset
    end in
  let queryset :=
    match supplied (GET_priority request) with
    | Some priority_filter => ORM.filter_priority priority_filter queryset
    | None => queryset
    end in
  ORM.order_by_created_desc queryset.

(** [self.get_object()]: the row of the view's queryset with the primary
    key of the URL; [None] stands for the [Http404] it raises. *)
Definition TaskViewSet_get_object (request : Request) (pk : Z) (st : Store)
  : option Task :=
  ORM.get pk (TaskViewSet_get_queryset request st).

(** The response the framework gives for [Http404]. *)
Definition not_found : Response :=
  mkResponse (VDict [("detail", VStr "No Task matches the given query.")])
    HTTP_404_NOT_FOUND.

Definition TaskViewSet_list (request : Request) (st : Store) : Response :=
  let queryset := TaskViewSet_get_queryset request st in
  let queryset :=
    match supplied (GET_status request) with
    | Some status_filter => ORM.filter_status status_filter queryset
    | None => queryset
    end in
  let queryset :=
    match supplied (GET_priority request) with
    | Some priority_filter => ORM.filter_priority priority_filter queryset
    | None => queryset
    end in
  mkResponse (many_data queryset) HTTP_200_OK.

Definition TaskViewSet_create (now : Z) (request : Request) (st : Store)
  : Response * Store :=
  match is_valid false (data request) with
  | inr vd =>
      let '(t, st') := save_create now vd st in
      (mkResponse (VDict (to_representation t)) HTTP_201_CREATED, st')
  | inl errors =>
      (mkResponse
         (VDict [("errors", errors_value errors);
                 ("received_data", VDict (data request));
                 ("message", VStr "Validation failed")])
         HTTP_400_BAD_REQUEST, st)
  end.

Definition TaskViewSet_retrieve (request : Request) (pk : Z) (st : Store)
  : Response :=
  match TaskViewSet_get_object request pk st with
  | None => not_found
  | Some instance => mkResponse (VDict (to_representation instance)) HTTP_200_OK
  end.

(** The common body of [update] and [partial_update], which differ in the
    [partial] flag given to the serializer. *)
Definition perform_update (partial : bool) (now : Z) (request : Request)
  (pk : Z) (st : Store) : Response * Store :=
  match TaskViewSet_get_object request pk st with
  | None => (not_found, st)
  | Some instance =>
      match is_valid partial (data request) with
      | inr vd =>
          let '(t, st') := save_update now instance vd st in
          (mkResponse (VDict (to_representation t)) HTTP_200_OK, st')
      | inl errors =>
          (mkResponse (errors_value errors) HTTP_400_BAD_REQUEST, st)
      end
  end.

Definition TaskViewSet_update := perform_update false.
Definition TaskViewSet_partial_update := perform_update true.

Definition TaskViewSet_destroy (request : Request) (pk : Z) (st : Store)
  : Response * Store :=
  match TaskViewSet_get_object request pk st with
  | None => (not_found, st)
  | Some instance =>
      (mkResponse (VDict [("message", VStr "Task deleted successfully")])
         HTTP_204_NO_CONTENT,
       ORM.delete_row instance st)
  end.

Definition TaskViewSet_high_priority (st : Store) : Response :=
  mkResponse (many_data (get_high_priority_tasks st)) HTTP_200_OK.

Definition TaskViewSet_statistics (st : Store) : Response :=
  mkResponse (VDict (get_task_statistics st)) HTTP_200_OK.

(** The ids of a [task_ids] value of the declared shape, an array of
    integers.  Any other shape is outside this model. *)
Fixpoint ints_of (l : list value) : option (list Z) :=
  match l with
  | [] => Some []
  | VInt n :: l' => option_map (cons n) (ints_of l')
  | _ :: _ => None
  end.
Definition ids_of_value (v : value) : option (list Z) :=
  match v with
  | VList l => ints_of l
  | _ => None
  end.

(** [None] is returned for a request whose [task_ids] is not an array of
    integers. *)
Definition TaskViewSet_bulk_update (now : Z) (request : Request) (st : Store)
  : option (Response * Store) :=
  let task_ids :=
    match dict_get "task_ids" (data request) with
    | Some v => v
    | None => VList []
    end in
  let update_data :=
    filter (fun kv => negb (String.eqb (fst kv) "task_ids")) (data request) in
  match ids_of_value task_ids with
  | None => None
  | Some ids =>
      Some
        match bulk_update_tasks now ids update_data st with
        | Returns updated_tasks st' =>
            (mkResponse
               (VDict [("updated_count",
                        VInt (Z.of_nat (List.length updated_tasks)));
                       ("tasks", many_data updated_tasks)])
               HTTP_200_OK, st')
        | Raises e st' =>
            (mkResponse (VDict [("error", VStr (str_of_exn e))])
               HTTP_400_BAD_REQUEST, st')
        end
  end.

(** A request without query parameters, with the given body. *)
Definition plain_request (body : dict) : Request := mkRequest None None body.

(** ** Specification vocabulary *)

(** [a] may come before [b] in a newest-first listing. *)
Definition newest_first (a b : Task) : Prop := created_at b <= created_at a.

(** The row passes every filter the request supplies. *)
Definition matches (request : Request) (t : Task) : bool :=
  match supplied (GET_status request) with
  | Some v => String.eqb (status t) v
  | None => true
  end &&
  match supplied (GET_priority request) with
  | Some v => String.eqb (priority t) v
  | None => true
  end.

(** High priority and not completed. *)
Definition high_open (t : Task) : bool :=
  String.eqb (priority t) "high" &&
  (String.eqb (status t) "pending" || String.eqb (status t) "in_progress").

(** A serialized Task: an object whose keys are those of [Meta.fields]. *)
Definition task_object (v : value) : Prop :=
  exists d, v = VDict d /\ dict_keys d = Meta.fields.

(** What the saves of the bulk loop, one per task of [ts], do to a row. *)
Definition saves (now : Z) (vd : dict) (ts : list Task) (r : Task) : Task :=
  fold_left
    (fun r t => if Z.eqb (id r) (id (updated now vd t)) then updated now vd t else r)
    ts r.

(** The [update_data] the bulk handler extracts from a request body. *)
Definition without_task_ids (body : dict) : dict :=
  filter (fun kv => negb (String.eqb (fst kv) "task_ids")) body.

(** The field raises no error on the data. *)
Definition field_ok (partial : bool) (d : dict) (f : field) : Prop :=
  forall e, validate_field partial d f <> FError e.

(** Every writable field the data supplies is valid. *)
Definition supplied_valid (d : dict) : Prop :=
  forall f, In f writable_fields ->
    dict_get (field_name f) d <> None -> field_ok true d f.

(** The data supplies every required field. *)
Definition required_supplied (d : dict) : Prop :=
  forall f, In f writable_fields ->
    required f = true -> dict_get (field_name f) d <> None.

(** A row as the serializer lets it into the table: a title that is not
    blank and has at most 200 characters, a priority and a status of the
    enumerations. *)
Definition row_ok (t : Task) : Prop :=
  Py.all_space (title t) = false /\
  (String.length (title t) <= 200)%nat /\
  Py.str_in (priority t) valid_priorities = true /\
  Py.str_in (status t) valid_statuses = true.

(** [t] is [s] without its surrounding whitespace, for the strings of
    [Py]. *)
Definition stripped_of (s t : string) : Prop :=
  Text.stripped_of Py.isspace (list_ascii_of_string s) (list_ascii_of_string t).

(** A title as the serializer accepts it. *)
Definition title_ok (s : string) : Prop :=
  Py.all_space s = false /\ (String.length s <= 200)%nat.

(** Every primary key in use is below the next one to be given out. *)
Definition ids_below (st : Store) : Prop :=
  forall t, In t (rows st) -> id t < next_id st.

(** The row with its status column overwritten. *)
Definition set_status (s : string) (t : Task) : Task :=
  mkTask (id t) (title t) (description t) (priority t) s
         (created_at t) (updated_at t) (due_date t).

(** The store a service call leaves, whether it returns or raises. *)
Definition outcome_store {A : Type} (o : outcome A) : Store :=
  match o with
  | Returns _ st => st
  | Raises _ st => st
  end.

(** The table as the handlers keep it. *)
Definition store_ok (st : Store) : Prop :=
  pk_unique st /\ ids_below st /\ forall t, In t (rows st) -> row_ok t.

(** ** Strings: stripping *)

Lemma lstrip_empty_iff (s : string) :
  Py.lstrip s = "" <-> Py.all_space s = true.
Proof.
  induction s as [|c s IH]; simpl.
  - tauto.
  - destruct (Py.isspace c); simpl.
    + exact IH.
    + split; discriminate.
Qed.

Lemma lstrip_head (s : string) :
  Py.lstrip s = "" \/
  exists c r, Py.lstrip s = String c r /\ Py.isspace c = false.
Proof.
  induction s as [|c s IH]; simpl.
  - now left.
  - destruct (Py.isspace c) eqn:E.
    + exact IH.
    + right. now exists c, s.
Qed.

Lemma rstrip_head (c : ascii) (r : string) :
  Py.isspace c = false -> exists r', Py.rstrip (String c r) = String c r'.
Proof.
  intros E. simpl. destruct (Py.rstrip r).
  - rewrite E. now exists "".
  - eexists. reflexivity.
Qed.

Lemma strip_empty_iff (s : string) :
  Py.strip s = "" <-> Py.all_space s = true.
Proof.
  unfold Py.strip. rewrite <- lstrip_empty_iff.
  destruct (lstrip_head s) as [E | (c & r & E & Hc)].
  - rewrite E. simpl. tauto.
  - rewrite E. destruct (rstrip_head c r Hc) as [r' E']. rewrite E'.
    split; discriminate.
Qed.

Lemma strip_not_blank (s : string) :
  Py.strip s <> "" -> Py.all_space (Py.strip s) = false.
Proof.
  unfold Py.strip.
  destruct (lstrip_head s) as [E | (c & r & E & Hc)].
  - rewrite E. simpl. congruence.
  - rewrite E. destruct (rstrip_head c r Hc) as [r' E']. rewrite E'.
    intros _. simpl. now rewrite Hc.
Qed.

Lemma all_space_strip (s : string) :
  Py.all_space s = false -> Py.all_space (Py.strip s) = false.
Proof.
  intros H. apply strip_not_blank. intros E.
  apply strip_empty_iff in E. congruence.
Qed.

Lemma validate_title_blank (s : string) :
  Py.all_space s = true -> validate_title s = Invalid "Title cannot be empty".
Proof.
  intros H. unfold validate_title.
  apply strip_empty_iff in H. rewrite H. simpl.
  now rewrite orb_true_r.
Qed.

Lemma validate_title_not_blank (s : string) :
  Py.all_space s = false -> validate_title s = Valid (Py.strip s).
Proof.
  intros H. unfold validate_title.
  assert (Hs : Py.strip s <> "").
  { intros E. apply strip_empty_iff in E. congruence. }
  assert (Hv : s <> "") by (intros ->; discriminate).
  destruct s as [|c s]; [congruence|].
  destruct (Py.strip (String c s)) eqn:E; [congruence|]. reflexivity.
Qed.

Lemma rstrip_idem (s : string) : Py.rstrip (Py.rstrip s) = Py.rstrip s.
Proof.
  induction s as [|c s IH]; simpl; [reflexivity|].
  destruct (Py.rstrip s) as [|c' r] eqn:E.
  - destruct (Py.isspace c) eqn:Ec; simpl; [reflexivity|]. now rewrite Ec.
  - simpl in *. now rewrite IH.
Qed.

Lemma strip_idem (s : string) : Py.strip (Py.strip s) = Py.strip s.
Proof.
  unfold Py.strip.
  destruct (lstrip_head s) as [E | (c & r & E & Hc)].
  - rewrite E. reflexivity.
  - rewrite E. destruct (rstrip_head c r Hc) as [r' E']. rewrite E'.
    assert (Hl : Py.lstrip (String c r') = String c r').
    { simpl. now rewrite Hc. }
    rewrite Hl, <- E'. apply rstrip_idem.
Qed.

(** ** Stripping characterised

    [Text.strip] returns the one text that [Text.stripped_of] describes;
    the functions of [Py] are those of [Text] on the characters of a
    [string], and those of [Unicode] on its code points. *)

Section StripFacts.

Context {A : Type} (sp : A -> bool).

Lemma text_lstrip_split (l : list A) :
  exists a, l = (a ++ Text.lstrip sp l)%list /\ forallb sp a = true.
Proof.
  induction l as [|c l (a & E & Ha)]; simpl.
  - exists []. auto.
  - destruct (sp c) eqn:Ec.
    + exists (c :: a). simpl. rewrite Ec, Ha. split; [now f_equal | reflexivity].
    + exists []. auto.
Qed.

Lemma text_lstrip_hd (l : list A) (c : A) :
  hd_error (Text.lstrip sp l) = Some c -> sp c = false.
Proof.
  induction l as [|x l IH]; simpl; [discriminate|].
  destruct (sp x) eqn:E; [exact IH|].
  simpl. intros H. inversion H; subst. exact E.
Qed.

Lemma text_rstrip_split (l : list A) :
  exists b, l = (Text.rstrip sp l ++ b)%list /\ forallb sp b = true.
Proof.
  induction l as [|c l (b & E & Hb)]; simpl.
  - exists []. auto.
  - destruct (Text.rstrip sp l) as [|x r].
    + simpl in E. destruct (sp c) eqn:Ec.
      * exists (c :: b). simpl. rewrite Ec, Hb. split; [now f_equal | reflexivity].
      * exists b. simpl. split; [now f_equal | assumption].
    + exists b. split; [|assumption]. simpl. now f_equal.
Qed.

Lemma text_rstrip_last (l : list A) (c : A) :
  Text.last_error (Text.rstrip sp l) = Some c -> sp c = false.
Proof.
  induction l as [|x l IH]; simpl; [discriminate|].
  destruct (Text.rstrip sp l) as [|y r].
  - destruct (sp x) eqn:E; simpl; [discriminate|].
    intros H. inversion H; subst. exact E.
  - exact IH.
Qed.

Lemma text_rstrip_hd (l : list A) (c : A) :
  hd_error (Text.rstrip sp l) = Some c -> hd_error l = Some c.
Proof.
  destruct l as [|x l]; simpl; [auto|].
  destruct (Text.rstrip sp l); [|auto].
  destruct (sp x); simpl; [discriminate | auto].
Qed.

(** What [strip] returns is the text without its surrounding whitespace. *)
Lemma text_strip_stripped (l : list A) :
  Text.stripped_of sp l (Text.strip sp l).
Proof.
  destruct (text_lstrip_split l) as (a & Ea & Ha).
  destruct (text_rstrip_split (Text.lstrip sp l)) as (b & Eb & Hb).
  exists a, b. unfold Text.strip. rewrite <- Eb.
  repeat split; auto.
  - intros c H. apply text_rstrip_hd in H. now apply text_lstrip_hd in H.
  - apply text_rstrip_last.
Qed.

Lemma text_lstrip_app (a l : list A) :
  forallb sp a = true -> Text.lstrip sp (a ++ l) = Text.lstrip sp l.
Proof.
  induction a as [|c a IH]; simpl; [reflexivity|].
  intros H. apply andb_true_iff in H. destruct H as [Hc Ha].
  rewrite Hc. auto.
Qed.

Lemma text_lstrip_all (b : list A) :
  forallb sp b = true -> Text.lstrip sp b = [].
Proof.
  induction b as [|c b IH]; simpl; [reflexivity|].
  intros H. apply andb_true_iff in H. destruct H as [Hc Hb].
  rewrite Hc. auto.
Qed.

Lemma text_rstrip_all (b : list A) :
  forallb sp b = true -> Text.rstrip sp b = [].
Proof.
  induction b as [|c b IH]; simpl; [reflexivity|].
  intros H. apply andb_true_iff in H. destruct H as [Hc Hb].
  rewrite (IH Hb), Hc. reflexivity.
Qed.

Lemma text_rstrip_app (t b : list A) :
  forallb sp b = true -> Text.rstrip sp (t ++ b) = Text.rstrip sp t.
Proof.
  intros Hb. induction t as [|c t IH]; simpl.
  - now apply text_rstrip_all.
  - now rewrite IH.
Qed.

Lemma text_rstrip_id (t : list A) :
  (forall c, Text.last_error t = Some c -> sp c = false) ->
  Text.rstrip sp t = t.
Proof.
  induction t as [|x t IH]; [reflexivity|].
  intros H. destruct t as [|y t].
  - simpl. now rewrite (H x eq_refl).
  - change (Text.rstrip sp (x :: y :: t))
      with (match Text.rstrip sp (y :: t) with
            | [] => if sp x then [] else [x]
            | r => x :: r
            end).
    rewrite IH; [reflexivity|].
    intros c Hc. apply H. exact Hc.
Qed.

(** ... and the only such text. *)
Lemma text_stripped_unique (l t : list A) :
  Text.stripped_of sp l t -> t = Text.strip sp l.
Proof.
  intros (a & b & -> & Ha & Hb & Hhd & Hlast). unfold Text.strip.
  rewrite (text_lstrip_app a _ Ha).
  destruct t as [|c t].
  - simpl. now rewrite (text_lstrip_all b Hb).
  - change (Text.lstrip sp ((c :: t) ++ b))
      with (if sp c then Text.lstrip sp (t ++ b) else (c :: t) ++ b)%list.
    rewrite (Hhd c eq_refl).
    rewrite (text_rstrip_app (c :: t) b Hb).
    symmetry. now apply text_rstrip_id.
Qed.

Lemma text_stripped_iff (l t : list A) :
  Text.stripped_of sp l t <-> t = Text.strip sp l.
Proof.
  split; [apply text_stripped_unique|].
  intros ->. apply text_strip_stripped.
Qed.

Lemma text_strip_nil_iff (l : list A) :
  Text.strip sp l = [] <-> forallb sp l = true.
Proof.
  split.
  - intros E. destruct (text_strip_stripped l) as (a & b & El & Ha & Hb & _).
    rewrite E in El. rewrite El. simpl. rewrite forallb_app, Ha, Hb. reflexivity.
  - intros H. symmetry. apply text_stripped_unique.
    exists l, []. simpl. rewrite app_nil_r.
    repeat split; auto; discriminate.
Qed.

(** A text that is stripped and was not blank is not blank. *)
Lemma text_strip_not_blank (l : list A) :
  forallb sp l = false ->
  Text.strip sp l <> [] /\ forallb sp (Text.strip sp l) = false.
Proof.
  intros H.
  assert (Hne : Text.strip sp l <> []).
  { intros E. apply text_strip_nil_iff in E. congruence. }
  split; [exact Hne|].
  destruct (text_strip_stripped l) as (_ & _ & _ & _ & _ & Hhd & _).
  destruct (Text.strip sp l) as [|c t]; [congruence|].
  simpl. now rewrite (Hhd c eq_refl).
Qed.

End StripFacts.

Lemma text_lstrip_map {A B : Type} (f : A -> B) (sp : A -> bool)
  (sp' : B -> bool) (l : list A) :
  (forall c, sp' (f c) = sp c) ->
  Text.lstrip sp' (map f l) = map f (Text.lstrip sp l).
Proof.
  intros H. induction l as [|c l IH]; simpl; [reflexivity|].
  rewrite H. destruct (sp c); [exact IH | reflexivity].
Qed.

Lemma text_rstrip_map {A B : Type} (f : A -> B) (sp : A -> bool)
  (sp' : B -> bool) (l : list A) :
  (forall c, sp' (f c) = sp c) ->
  Text.rstrip sp' (map f l) = map f (Text.rstrip sp l).
Proof.
  intros H. induction l as [|c l IH]; simpl; [reflexivity|].
  rewrite IH, H. destruct (Text.rstrip sp l); simpl; [|reflexivity].
  destruct (sp c); reflexivity.
Qed.

Lemma list_ascii_lstrip (s : string) :
  list_ascii_of_string (Py.lstrip s) =
  Text.lstrip Py.isspace (list_ascii_of_string s).
Proof.
  induction s as [|c s IH]; simpl; [reflexivity|].
  destruct (Py.isspace c); [exact IH | reflexivity].
Qed.

Lemma list_ascii_rstrip (s : string) :
  list_ascii_of_string (Py.rstrip s) =
  Text.rstrip Py.isspace (list_ascii_of_string s).
Proof.
  induction s as [|c s IH]; simpl; [reflexivity|].
  rewrite <- IH. destruct (Py.rstrip s); simpl; [|reflexivity].
  destruct (Py.isspace c); reflexivity.
Qed.

Lemma list_ascii_strip (s : string) :
  list_ascii_of_string (Py.strip s) =
  Text.strip Py.isspace (list_ascii_of_string s).
Proof.
  unfold Py.strip, Text.strip.
  now rewrite list_ascii_rstrip, list_ascii_lstrip.
Qed.

Lemma list_ascii_all_space (s : string) :
  forallb Py.isspace (list_ascii_of_string s) = Py.all_space s.
Proof.
  induction s as [|c s IH]; simpl; [reflexivity|]. now rewrite IH.
Qed.

(** [Py.strip s] is [s] without its surrounding whitespace, and nothing
    else is. *)
Lemma stripped_of_iff (s t : string) : stripped_of s t <-> t = Py.strip s.
Proof.
  unfold stripped_of. rewrite text_stripped_iff, <- list_ascii_strip.
  split.
  - intros H. apply (f_equal string_of_list_ascii) in H.
    now rewrite !string_of_list_ascii_of_string in H.
  - now intros ->.
Qed.

(** On the code points below 256 the two whitespace tests agree. *)
Lemma isspace_code_point (c : ascii) :
  Unicode.isspace (N_of_ascii c) = Py.isspace c.
Proof.
  destruct c as [[] [] [] [] [] [] [] []]; reflexivity.
Qed.

Lemma code_points_strip (s : string) :
  Unicode.code_points (Py.strip s) =
  Text.strip Unicode.isspace (Unicode.code_points s).
Proof.
  unfold Unicode.code_points, Text.strip.
  rewrite list_ascii_strip. unfold Text.strip.
  rewrite (text_lstrip_map N_of_ascii Py.isspace Unicode.isspace _
             isspace_code_point).
  now rewrite (text_rstrip_map N_of_ascii Py.isspace Unicode.isspace _
                 isspace_code_point).
Qed.

Lemma code_points_truthy (s : string) :
  Unicode.truthy (Unicode.code_points s) = Py.truthy s.
Proof. destruct s; reflexivity. Qed.

(** [validate_title] on a [string] is [Unicode.validate_title] on its code
    points. *)
Lemma validate_title_code_points (s : string) :
  Unicode.validate_title (Unicode.code_points s) =
  match validate_title s with
  | Valid t => Valid (Unicode.code_points t)
  | Invalid msg => Invalid msg
  end.
Proof.
  unfold Unicode.validate_title, validate_title.
  rewrite <- code_points_strip, !code_points_truthy.
  destruct (negb (Py.truthy s) || negb (Py.truthy (Py.strip s))); reflexivity.
Qed.

Lemma unicode_validate_title_blank (u : Unicode.str) :
  forallb Unicode.isspace u = true ->
  Unicode.validate_title u = Invalid "Title cannot be empty".
Proof.
  intros H. unfold Unicode.validate_title.
  rewrite (proj2 (text_strip_nil_iff Unicode.isspace u) H). simpl.
  now rewrite orb_true_r.
Qed.

Lemma unicode_validate_title_not_blank (u : Unicode.str) :
  forallb Unicode.isspace u = false ->
  Unicode.validate_title u = Valid (Text.strip Unicode.isspace u).
Proof.
  intros H. unfold Unicode.validate_title.
  destruct (text_strip_not_blank Unicode.isspace u H) as [Hne _].
  destruct u as [|c u]; [discriminate|].
  destruct (Text.strip Unicode.isspace (c :: u)); [congruence | reflexivity].
Qed.

(** ** The serializer loop *)

Lemma writable_fields_eq :
  map field_name writable_fields =
  ["title"; "description"; "priority"; "status"; "due_date"].
Proof. reflexivity. Qed.

Lemma collect_values (partial : bool) (d : dict) (fs : list field) k v :
  In (k, v) (snd (collect partial d fs)) ->
  exists f, In f fs /\ field_name f = k /\ validate_field partial d f = FValue v.
Proof.
  induction fs as [|f fs IH]; simpl; [tauto|].
  destruct (collect partial d fs) as [errs ret].
  destruct (validate_field partial d f) eqn:E; simpl in *.
  - intros [H | H].
    + inversion H; subst. exists f. auto.
    + destruct (IH H) as (g & ? & ? & ?). exists g. auto.
  - intros H. destruct (IH H) as (g & ? & ? & ?). exists g. auto.
  - intros H. destruct (IH H) as (g & ? & ? & ?). exists g. auto.
Qed.

Lemma collect_errors (partial : bool) (d : dict) (fs : list field) k e :
  In (k, e) (fst (collect partial d fs)) <->
  exists f, In f fs /\ field_name f = k /\ validate_field partial d f = FError e.
Proof.
  induction fs as [|f fs IH]; simpl.
  - split; [tauto | intros (? & [] & _)].
  - destruct (collect partial d fs) as [errs ret].
    destruct (validate_field partial d f) eqn:E; simpl in *.
    + rewrite IH. split.
      * intros (g & ? & ? & ?). exists g. auto.
      * intros (g & [<- | ?] & ? & ?); [congruence | exists g; auto].
    + rewrite IH. split.
      * intros (g & ? & ? & ?). exists g. auto.
      * intros (g & [<- | ?] & ? & ?); [congruence | exists g; auto].
    + split.
      * intros [H | H].
        -- inversion H; subst. exists f. auto.
        -- apply IH in H. destruct H as (g & ? & ? & ?). exists g. auto.
      * intros (g & [<- | ?] & ? & ?).
        -- left. congruence.
        -- right. apply IH. exists g. auto.
Qed.

(** No field in error: the serializer is valid, with the collected data. *)
Lemma is_valid_inr (partial : bool) (d : dict) :
  (forall f e, In f writable_fields -> validate_field partial d f <> FError e) ->
  is_valid partial d = inr (snd (collect partial d writable_fields)).
Proof.
  intros H. unfold is_valid.
  destruct (collect partial d writable_fields) as [errs ret] eqn:E.
  destruct errs as [|[k e] errs]; [reflexivity|].
  exfalso.
  assert (Hin : In (k, e) (fst (collect partial d writable_fields))).
  { rewrite E. now left. }
  apply collect_errors in Hin. destruct Hin as (f & Hf & _ & Hv).
  exact (H f e Hf Hv).
Qed.

(** One field in error: the serializer is invalid, and the field is a key
    of the errors. *)
Lemma is_valid_inl (partial : bool) (d : dict) f e :
  In f writable_fields -> validate_field partial d f = FError e ->
  exists errs, is_valid partial d = inl errs /\ In (field_name f, e) errs.
Proof.
  intros Hf Hv. unfold is_valid.
  assert (Hin : In (field_name f, e) (fst (collect partial d writable_fields))).
  { apply collect_errors. exists f. auto. }
  destruct (collect partial d writable_fields) as [errs ret]. simpl in Hin.
  destruct errs as [|x errs]; [contradiction|].
  exists (x :: errs). auto.
Qed.

Lemma is_valid_inr_inv (partial : bool) (d : dict) vd :
  is_valid partial d = inr vd ->
  vd = snd (collect partial d writable_fields) /\
  forall f e, In f writable_fields -> validate_field partial d f <> FError e.
Proof.
  intros H. split.
  - unfold is_valid in H.
    destruct (collect partial d writable_fields) as [errs ret].
    destruct errs; simpl; congruence.
  - intros f e Hf Hv.
    destruct (is_valid_inl partial d f e Hf Hv) as (errs & E & _). congruence.
Qed.

(** A key that is not supplied is skipped by a partial update, and fails a
    full update exactly when the field is required. *)
Lemma validate_field_missing (partial : bool) (d : dict) (f : field) :
  dict_get (field_name f) d = None ->
  validate_field partial d f =
    if partial then FSkip
    else if required f then FError [ErrCode "required"] else FSkip.
Proof.
  intros H. unfold validate_field, run_validation. rewrite H.
  destruct (kind f); simpl; destruct partial; try reflexivity;
    destruct (required f); reflexivity.
Qed.

Lemma dict_get_none (k : string) (d : dict) :
  dict_get k d = None <-> forall v, ~ In (k, v) d.
Proof.
  induction d as [|[k' v'] d IH]; simpl.
  - split; auto.
  - destruct (String.eqb_spec k k') as [-> | Hne].
    + split; [discriminate|]. intros H. exfalso. apply (H v'). now left.
    + rewrite IH. split.
      * intros H v [E | E]; [congruence | exact (H v E)].
      * intros H v E. apply (H v). now right.
Qed.

(** The validated data of a partial update has no entry for a key the
    request does not supply. *)
Lemma partial_validated_keys (d : dict) (name : string) :
  dict_get name d = None ->
  dict_get name (snd (collect true d writable_fields)) = None.
Proof.
  intros H. apply dict_get_none. intros v Hin.
  apply collect_values in Hin. destruct Hin as (f & _ & <- & Hv).
  rewrite (validate_field_missing true d f H) in Hv. discriminate.
Qed.

(** ** Saving an instance *)

Ltac split_eqb :=
  repeat match goal with
  | |- context [String.eqb ?a ?b] =>
      destruct (String.eqb_spec a b); subst; simpl; try congruence
  end.

Lemma setattr_id (t : Task) k v : id (setattr t k v) = id t.
Proof. destruct v; simpl; split_eqb; reflexivity. Qed.

Lemma setattr_created_at (t : Task) k v :
  created_at (setattr t k v) = created_at t.
Proof. destruct v; simpl; split_eqb; reflexivity. Qed.

(** Setting one attribute leaves the others as they are. *)
Lemma getattr_setattr_other (t : Task) k v name :
  name <> k -> getattr (setattr t k v) name = getattr t name.
Proof.
  intros Hne. unfold getattr.
  destruct v; simpl; try reflexivity; split_eqb; reflexivity.
Qed.

Lemma set_all_id (vd : dict) (t : Task) : id (set_all t vd) = id t.
Proof.
  revert t. induction vd as [|[k v] vd IH]; intros t; simpl; [reflexivity|].
  unfold set_all in *. simpl. rewrite IH. apply setattr_id.
Qed.

Lemma set_all_created_at (vd : dict) (t : Task) :
  created_at (set_all t vd) = created_at t.
Proof.
  revert t. induction vd as [|[k v] vd IH]; intros t; simpl; [reflexivity|].
  unfold set_all in *. simpl. rewrite IH. apply setattr_created_at.
Qed.

Lemma set_all_frame (vd : dict) (t : Task) (name : string) :
  dict_get name vd = None -> getattr (set_all t vd) name = getattr t name.
Proof.
  revert t. induction vd as [|[k v] vd IH]; intros t; simpl; [reflexivity|].
  destruct (String.eqb_spec name k) as [-> | Hne]; [discriminate|].
  intros H. unfold set_all in *. simpl. rewrite (IH _ H).
  now apply getattr_setattr_other.
Qed.

Lemma getattr_touch (now : Z) (t : Task) (name : string) :
  name <> "updated_at" -> getattr (touch now t) name = getattr t name.
Proof.
  intros H. unfold getattr, touch. simpl.
  destruct (String.eqb_spec name "updated_at"); [congruence|]. reflexivity.
Qed.

(** What an update stores is the instance with the validated entries set
    and [updated_at] refreshed; [id] and [created_at] stay. *)
Lemma updated_id now vd instance : id (updated now vd instance) = id instance.
Proof. unfold updated. simpl. apply set_all_id. Qed.

Lemma updated_created_at now vd instance :
  created_at (updated now vd instance) = created_at instance.
Proof. unfold updated. simpl. apply set_all_created_at. Qed.

Lemma updated_updated_at now vd instance :
  updated_at (updated now vd instance) = now.
Proof. reflexivity. Qed.

Lemma updated_frame now vd instance name :
  name <> "updated_at" -> dict_get name vd = None ->
  getattr (updated now vd instance) name = getattr instance name.
Proof.
  intros H1 H2. unfold updated. rewrite getattr_touch by assumption.
  now apply set_all_frame.
Qed.

(** ** The table *)

Lemma get_some (pk : Z) (qs : list Task) (t : Task) :
  ORM.get pk qs = Some t -> In t qs /\ id t = pk.
Proof.
  unfold ORM.get. intros H. apply find_some in H.
  destruct H as [H1 H2]. apply Z.eqb_eq in H2. auto.
Qed.

Lemma get_none (pk : Z) (qs : list Task) :
  ORM.get pk qs = None <-> forall t, In t qs -> id t <> pk.
Proof.
  unfold ORM.get. split.
  - intros H t Hin E. apply (find_none _ _ H) in Hin.
    apply Z.eqb_neq in Hin. congruence.
  - intros H. induction qs as [|u qs IH]; simpl; [reflexivity|].
    destruct (Z.eqb_spec (id u) pk) as [E | _].
    + exfalso. apply (H u); [now left | exact E].
    + apply IH. intros t Hin. apply H. now right.
Qed.

(** After [save()], a lookup of the primary key gives the saved instance. *)
Lemma get_update_row (t : Task) (st : Store) :
  (exists r, In r (rows st) /\ id r = id t) ->
  ORM.get (id t) (rows (ORM.update_row t st)) = Some t.
Proof.
  intros (r & Hin & E). simpl. unfold ORM.get.
  induction (rows st) as [|u qs IH]; [contradiction|]. simpl.
  destruct (Z.eqb_spec (id u) (id t)) as [Eu | Nu].
  - now rewrite Z.eqb_refl.
  - apply Z.eqb_neq in Nu. rewrite Nu.
    destruct Hin as [-> | Hin]; [apply Z.eqb_neq in Nu; congruence|].
    now apply IH.
Qed.

(** [save()] leaves the rows of other primary keys in place. *)
Lemma update_row_other (t : Task) (st : Store) (r : Task) :
  id r <> id t -> In r (rows st) -> In r (rows (ORM.update_row t st)).
Proof.
  intros Hne Hin. simpl. apply in_map_iff. exists r. split; [|assumption].
  apply Z.eqb_neq in Hne. now rewrite Hne.
Qed.

(** ** Querysets: filtering and ordering *)

Lemma insert_desc_perm (t : Task) (qs : list Task) :
  Permutation (t :: qs) (ORM.insert_desc t qs).
Proof.
  induction qs as [|u qs IH]; simpl; [reflexivity|].
  destruct (created_at u <=? created_at t); [reflexivity|].
  rewrite perm_swap. now apply perm_skip.
Qed.

Lemma order_by_perm (qs : list Task) :
  Permutation qs (ORM.order_by_created_desc qs).
Proof.
  induction qs as [|t qs IH]; simpl; [reflexivity|].
  rewrite <- insert_desc_perm. now apply perm_skip.
Qed.

Lemma insert_desc_sorted (t : Task) (qs : list Task) :
  StronglySorted newest_first qs ->
  StronglySorted newest_first (ORM.insert_desc t qs).
Proof.
  induction 1 as [|u qs Hs IH Hall]; simpl.
  - repeat constructor.
  - destruct (Z.leb_spec (created_at u) (created_at t)) as [Hlt | Hge].
    + constructor; [now constructor|]. constructor.
      * unfold newest_first. lia.
      * eapply Forall_impl; [|exact Hall]. unfold newest_first. intros; lia.
    + constructor; [exact IH|].
      eapply Permutation_Forall; [apply insert_desc_perm|].
      constructor; [unfold newest_first; lia | exact Hall].
Qed.

Lemma order_by_sorted (qs : list Task) :
  StronglySorted newest_first (ORM.order_by_created_desc qs).
Proof.
  induction qs as [|t qs IH]; simpl; [constructor|].
  now apply insert_desc_sorted.
Qed.

Lemma order_by_in (qs : list Task) (t : Task) :
  In t (ORM.order_by_created_desc qs) <-> In t qs.
Proof.
  split; apply Permutation_in; [symmetry|]; apply order_by_perm.
Qed.

Lemma filter_id {A : Type} (p : A -> bool) (l : list A) :
  (forall x, In x l -> p x = true) -> filter p l = l.
Proof.
  induction l as [|x l IH]; simpl; intros H; [reflexivity|].
  rewrite (H x) by now left. f_equal. apply IH. intros y Hy. apply H. now right.
Qed.

Lemma filter_twice {A : Type} (p q : A -> bool) (l : list A) :
  filter q (filter p l) = filter (fun x => p x && q x) l.
Proof.
  induction l as [|x l IH]; simpl; [reflexivity|].
  destruct (p x); simpl; [destruct (q x)|]; now rewrite IH.
Qed.

Lemma filter_true {A : Type} (l : list A) : filter (fun _ => true) l = l.
Proof. apply filter_id. reflexivity. Qed.

(** The queryset of the view: the rows that pass the supplied filters,
    newest first. *)
Lemma get_queryset_eq (request : Request) (st : Store) :
  TaskViewSet_get_queryset request st =
  ORM.order_by_created_desc (filter (matches request) (rows st)).
Proof.
  unfold TaskViewSet_get_queryset, matches, ORM.all,
    ORM.filter_status, ORM.filter_priority.
  destruct (supplied (GET_status request)) as [s|];
    destruct (supplied (GET_priority request)) as [p|].
  - now rewrite filter_twice.
  - f_equal. apply filter_ext. intros t. now rewrite andb_true_r.
  - reflexivity.
  - now rewrite filter_true.
Qed.

Lemma get_queryset_matches (request : Request) (st : Store) (t : Task) :
  In t (TaskViewSet_get_queryset request st) ->
  In t (rows st) /\ matches request t = true.
Proof.
  rewrite get_queryset_eq, order_by_in, filter_In. tauto.
Qed.

(** With no filter supplied the view's queryset holds every row. *)
Lemma get_queryset_plain (body : dict) (st : Store) (t : Task) :
  In t (TaskViewSet_get_queryset (plain_request body) st) <-> In t (rows st).
Proof.
  rewrite get_queryset_eq, order_by_in. unfold matches. simpl.
  now rewrite filter_true.
Qed.

(** The filters [list] applies once more change nothing. *)
Lemma list_eq (request : Request) (st : Store) :
  TaskViewSet_list request st =
  mkResponse
    (many_data (ORM.order_by_created_desc (filter (matches request) (rows st))))
    HTTP_200_OK.
Proof.
  unfold TaskViewSet_list. f_equal. f_equal.
  assert (H : forall t, In t (TaskViewSet_get_queryset request st) ->
                        matches request t = true).
  { intros t Ht. now apply get_queryset_matches in Ht. }
  rewrite <- get_queryset_eq.
  unfold matches in H. unfold ORM.filter_status, ORM.filter_priority.
  destruct (supplied (GET_status request)) as [s|];
    destruct (supplied (GET_priority request)) as [p|].
  - rewrite filter_twice. apply filter_id. exact H.
  - apply filter_id. intros t Ht. specialize (H t Ht).
    now rewrite andb_true_r in H.
  - apply filter_id. exact H.
  - reflexivity.
Qed.

(** ** Counting *)

Lemma count_length (q : Task -> bool) (qs : list Task) :
  count q qs = Z.of_nat (List.length (filter q qs)).
Proof.
  unfold count.
  assert (H : forall n, fold_left (fun n t => if q t then n + 1 else n) qs n
                        = n + Z.of_nat (List.length (filter q qs))).
  { induction qs as [|t qs IH]; intros n; simpl; [lia|].
    rewrite IH. destruct (q t); simpl List.length; lia. }
  now rewrite H.
Qed.

(** ** The bulk update loop *)

Section Bulk.

Variable now : Z.
Variable update_data : dict.

Lemma bulk_loop_valid (vd : dict) :
  is_valid true update_data = inr vd ->
  forall tasks acc st,
    bulk_update_loop now update_data tasks acc st =
    Returns (acc ++ map (updated now vd) tasks)%list
      (fold_left (fun s t => ORM.update_row (updated now vd t) s) tasks st).
Proof.
  intros Hv. induction tasks as [|t tasks IH]; intros acc st; simpl.
  - now rewrite app_nil_r.
  - rewrite Hv. rewrite IH. now rewrite <- app_assoc.
Qed.

Lemma bulk_loop_invalid (errs : error_dict) :
  is_valid true update_data = inl errs ->
  forall t tasks acc st,
    bulk_update_loop now update_data (t :: tasks) acc st =
    Raises (ValidationError errs) st.
Proof. intros Hv t tasks acc st. simpl. now rewrite Hv. Qed.

Variable vd : dict.

Lemma fold_update_rows (ts : list Task) (st : Store) :
  fold_left (fun s t => ORM.update_row (updated now vd t) s) ts st =
  mkStore (map (saves now vd ts) (rows st)) (next_id st).
Proof.
  revert st. induction ts as [|t ts IH]; intros st; simpl.
  - rewrite map_id. now destruct st.
  - rewrite IH. simpl. now rewrite map_map.
Qed.

Lemma saves_other (ts : list Task) (r : Task) :
  (forall t, In t ts -> id t <> id r) -> saves now vd ts r = r.
Proof.
  revert r. induction ts as [|t ts IH]; intros r H; simpl; [reflexivity|].
  rewrite ?updated_id, ?set_all_id.
  destruct (Z.eqb_spec (id r) (id t)) as [E | _].
  - exfalso. apply (H t); [now left | congruence].
  - apply IH. intros u Hu. apply H. now right.
Qed.

Lemma saves_self (ts : list Task) (r : Task) :
  NoDup (map id ts) -> In r ts -> saves now vd ts r = updated now vd r.
Proof.
  induction ts as [|t ts IH]; intros Hnd Hin; [contradiction|].
  simpl in Hnd. inversion Hnd as [|x l Hnotin Hnd']; subst.
  simpl. rewrite ?updated_id, ?set_all_id.
  destruct Hin as [-> | Hin].
  - rewrite Z.eqb_refl. apply saves_other.
    intros u Hu E. apply Hnotin. rewrite updated_id in E. rewrite <- E.
    now apply in_map.
  - destruct (Z.eqb_spec (id r) (id t)) as [E | _].
    + exfalso. apply Hnotin. rewrite <- E. now apply in_map.
    + now apply IH.
Qed.

Lemma NoDup_map_filter (p : Task -> bool) (l : list Task) :
  NoDup (map id l) -> NoDup (map id (filter p l)).
Proof.
  induction l as [|t l IH]; simpl; intros H; [constructor|].
  inversion H as [|x l' Hnotin Hnd]; subst.
  destruct (p t); simpl; [constructor|]; auto.
  intros Hin. apply Hnotin. apply in_map_iff in Hin.
  destruct Hin as (u & E & Hu). apply filter_In in Hu.
  apply in_map_iff. exists u. tauto.
Qed.

(** On a table with unique primary keys, the saves of the loop replace
    each selected row by its update and leave the others. *)
Lemma saves_selected (ids : list Z) (st : Store) :
  pk_unique st ->
  map (saves now vd (filter (ORM.id_in ids) (rows st))) (rows st) =
  map (fun t => if ORM.id_in ids t then updated now vd t else t) (rows st).
Proof.
  intros Hnd. apply map_ext_in. intros r Hr.
  destruct (ORM.id_in ids r) eqn:E.
  - apply saves_self.
    + now apply NoDup_map_filter.
    + apply filter_In. auto.
  - apply saves_other. intros t Ht Eid. apply filter_In in Ht.
    destruct Ht as [_ Ht]. unfold ORM.id_in in *. rewrite Eid in Ht. congruence.
Qed.

End Bulk.

Lemma ints_of_ints (ids : list Z) : ints_of (map VInt ids) = Some ids.
Proof.
  induction ids as [|n ids IH]; simpl; [reflexivity|]. now rewrite IH.
Qed.

(** The service on a table with unique primary keys. *)
Lemma bulk_update_tasks_eq (now : Z) (ids : list Z) (update_data : dict)
  (st : Store) :
  pk_unique st ->
  bulk_update_tasks now ids update_data st =
  match is_valid true update_data, filter (ORM.id_in ids) (rows st) with
  | inr vd, hit =>
      Returns (map (updated now vd) hit)
        (mkStore
           (map (fun t => if ORM.id_in ids t then updated now vd t else t)
                (rows st))
           (next_id st))
  | inl errs, [] => Returns [] st
  | inl errs, _ :: _ => Raises (ValidationError errs) st
  end.
Proof.
  intros Hnd. unfold bulk_update_tasks, atomic, ORM.filter_id_in, ORM.all.
  destruct (is_valid true update_data) as [errs | vd] eqn:Hv.
  - destruct (filter (ORM.id_in ids) (rows st)) as [|t hit]; [reflexivity|].
    now rewrite (bulk_loop_invalid now update_data errs Hv).
  - rewrite (bulk_loop_valid now update_data vd Hv). simpl.
    rewrite fold_update_rows. now rewrite saves_selected.
Qed.

(** ** Title validation *)

Lemma validate_title_valid_inv (s t : string) :
  validate_title s = Valid t ->
  t = Py.strip s /\ t <> "" /\ Py.all_space t = false.
Proof.
  intros H. destruct (Py.all_space s) eqn:E.
  - rewrite (validate_title_blank s E) in H. discriminate.
  - rewrite (validate_title_not_blank s E) in H. inversion H; subst.
    pose proof (all_space_strip s E) as Hs. repeat split; auto.
    intros E0. rewrite E0 in Hs. discriminate.
Qed.

Lemma dict_get_in (k : string) (d : dict) (v : value) :
  dict_get k d = Some v -> In (k, v) d.
Proof.
  induction d as [|[k' v'] d IH]; simpl; [discriminate|].
  destruct (String.eqb_spec k k') as [-> | _].
  - intros H. inversion H. now left.
  - intros H. right. auto.
Qed.

Lemma writable_title (f : field) :
  In f writable_fields -> field_name f = "title" -> f = build_field "title".
Proof.
  intros Hin Hn. simpl in Hin.
  destruct Hin as [<- | [<- | [<- | [<- | [<- | []]]]]];
    first [reflexivity | discriminate Hn].
Qed.

Lemma title_writable : In (build_field "title") writable_fields.
Proof. simpl. auto. Qed.

(** The text field of the title hands a [str] to [validate_title]. *)
Lemma run_validation_title (partial : bool) (data : option value) (v : value) :
  run_validation partial (build_field "title") data = FValue v ->
  exists s, v = VStr s.
Proof.
  unfold run_validation, run_empty_checks, to_internal_value. simpl.
  destruct data as [[| b | n | s | t | l | d]|]; simpl;
    try discriminate;
    repeat match goal with
    | |- context [if ?c then _ else _] => destruct c; simpl
    end; try discriminate;
    intros H; inversion H; eauto.
Qed.

Lemma title_field_value (partial : bool) (d : dict) (v : value) :
  validate_field partial d (build_field "title") = FValue v ->
  exists t, v = VStr t /\ t <> "" /\ Py.all_space t = false.
Proof.
  unfold validate_field.
  destruct (run_validation partial (build_field "title")
              (dict_get (field_name (build_field "title")) d)) as [v0| |e] eqn:R;
    try discriminate.
  destruct (run_validation_title _ _ _ R) as [s ->].
  simpl. destruct (validate_title s) as [t|msg] eqn:E; [|discriminate].
  intros H. inversion H; subst. exists t. split; [reflexivity|].
  now apply validate_title_valid_inv in E.
Qed.

Lemma title_field_blank (partial : bool) (d : dict) (s : string) :
  dict_get "title" d = Some (VStr s) -> Py.all_space s = true ->
  validate_field partial d (build_field "title") = FError [ErrCode "blank"].
Proof.
  intros Hg Hs. unfold validate_field, run_validation. simpl.
  now rewrite Hg, Hs.
Qed.

(** A title supplied as text is validated to that text stripped on both
    sides. *)
Lemma title_field_stripped (partial : bool) (d : dict) (s t : string) :
  dict_get "title" d = Some (VStr s) ->
  validate_field partial d (build_field "title") = FValue (VStr t) ->
  stripped_of s t.
Proof.
  intros Hg. unfold validate_field, run_validation, run_empty_checks,
    to_internal_value. simpl. rewrite Hg.
  destruct (Py.all_space s) eqn:Es; [discriminate|].
  destruct ((200 <? String.length (Py.strip s))%nat); simpl; [discriminate|].
  destruct (has_nul (Py.strip s)); simpl; [discriminate|].
  rewrite (validate_title_not_blank _ (all_space_strip s Es)), strip_idem.
  intros H. inversion H. now apply stripped_of_iff.
Qed.

(** C7. [validate_title] raises its error exactly on a title that is empty
    or made of whitespace only; any other title is passed on stripped of
    surrounding whitespace: the value passed on is the one text [t] such
    that the title is [t] between two runs of whitespace and [t] neither
    starts nor ends with whitespace.  In the serializer a blank title is an
    error under the key "title", a title that passed validation is never
    empty or whitespace-only, and the validated title is the supplied text
    stripped on both sides.  The same holds of [validate_title] on texts
    of arbitrary code points with the whitespace of Unicode, of which the
    strings of the model are the texts of code points below 256. *)
Theorem validate_title_spec (text : string) :
  ((exists msg, validate_title text = Invalid msg) <->
     (text = "" \/ Py.all_space text = true)) /\
  (~ (text = "" \/ Py.all_space text = true) ->
     validate_title text = Valid (Py.strip text)) /\
  (forall t, validate_title text = Valid t ->
     t = Py.strip text /\ t <> "" /\ Py.all_space t = false) /\
  (forall partial d,
     dict_get "title" d = Some (VStr text) ->
     (text = "" \/ Py.all_space text = true) ->
     exists errs e, is_valid partial d = inl errs /\ In ("title", e) errs) /\
  (forall partial d vd v,
     is_valid partial d = inr vd -> dict_get "title" vd = Some v ->
     exists t, v = VStr t /\ t <> "" /\ Py.all_space t = false) /\
  (forall t, validate_title text = Valid t <->
     ~ (text = "" \/ Py.all_space text = true) /\ stripped_of text t) /\
  (forall partial d vd v,
     dict_get "title" d = Some (VStr text) ->
     is_valid partial d = inr vd -> dict_get "title" vd = Some v ->
     exists t, v = VStr t /\ stripped_of text t) /\
  (validate_title " a  " = Valid "a" /\
   validate_title "  Buy milk " = Valid "Buy milk" /\
   validate_title (String (ascii_of_nat 9) "a b" ++ String (ascii_of_nat 10) "")
     = Valid "a b" /\
   validate_title "   " = Invalid "Title cannot be empty" /\
   validate_title "" = Invalid "Title cannot be empty") /\
  (forall u : Unicode.str,
     ((exists msg, Unicode.validate_title u = Invalid msg) <->
        (u = [] \/ forallb Unicode.isspace u = true)) /\
     (forall t, Unicode.validate_title u = Valid t <->
        ~ (u = [] \/ forallb Unicode.isspace u = true) /\
        Text.stripped_of Unicode.isspace u t) /\
     (forall t, Unicode.validate_title u = Valid t ->
        t <> [] /\ forallb Unicode.isspace t = false)) /\
  Unicode.validate_title (Unicode.code_points text) =
    match validate_title text with
    | Valid t => Valid (Unicode.code_points t)
    | Invalid msg => Invalid msg
    end /\
  (Unicode.validate_title [12288; 72; 105; 32; 33; 160; 8195]%N
     = Valid [72; 105; 32; 33]%N /\
   Unicode.validate_title [8232; 12288; 5760]%N
     = Invalid "Title cannot be empty").
Proof.
  assert (Hblank : text = "" \/ Py.all_space text = true ->
                   Py.all_space text = true).
  { intros [-> | H]; [reflexivity | exact H]. }
  assert (Hublank : forall u : Unicode.str,
            u = [] \/ forallb Unicode.isspace u = true <->
            forallb Unicode.isspace u = true).
  { intros u. split; [intros [-> | H]; [reflexivity | exact H] | now right]. }
  split; [|split; [|split; [|split; [|split; [|split; [|split; [|split;
    [|split; [|split]]]]]]]]].
  - split.
    + intros [msg H]. right. destruct (Py.all_space text) eqn:E; [reflexivity|].
      rewrite (validate_title_not_blank text E) in H. discriminate.
    + intros H. eexists. apply validate_title_blank. auto.
  - intros H. apply validate_title_not_blank.
    destruct (Py.all_space text); [exfalso; apply H; now right | reflexivity].
  - intros t. apply validate_title_valid_inv.
  - intros partial d Hg Hb.
    pose proof (title_field_blank partial d text Hg (Hblank Hb)) as Hv.
    destruct (is_valid_inl partial d _ _ title_writable Hv) as (errs & E & Hin).
    exists errs, [ErrCode "blank"]. auto.
  - intros partial d vd v Hv Hg.
    apply is_valid_inr_inv in Hv. destruct Hv as [-> _].
    apply dict_get_in in Hg. apply collect_values in Hg.
    destruct Hg as (f & Hf & Hn & Hval).
    rewrite (writable_title f Hf Hn) in Hval.
    now apply title_field_value in Hval.
  - intros t. rewrite stripped_of_iff.
    destruct (Py.all_space text) eqn:E.
    + rewrite (validate_title_blank text E). split; [discriminate|].
      intros [H _]. exfalso. apply H. now right.
    + rewrite (validate_title_not_blank text E). split.
      * intros H. inversion H. split; [|reflexivity].
        intros Hb. apply Hblank in Hb. discriminate.
      * now intros [_ ->].
  - intros partial d vd v Hd Hv Hg.
    apply is_valid_inr_inv in Hv. destruct Hv as [-> _].
    apply dict_get_in in Hg. apply collect_values in Hg.
    destruct Hg as (f & Hf & Hn & Hval).
    rewrite (writable_title f Hf Hn) in Hval.
    destruct (title_field_value _ _ _ Hval) as (t & -> & _).
    exists t. split; [reflexivity|].
    exact (title_field_stripped partial d text t Hd Hval).
  - repeat split.
  - intros u. rewrite Hublank. split; [|split].
    + split.
      * intros [msg H]. destruct (forallb Unicode.isspace u) eqn:E; [reflexivity|].
        rewrite (unicode_validate_title_not_blank u E) in H. discriminate.
      * intros H. eexists. now apply unicode_validate_title_blank.
    + intros t. rewrite text_stripped_iff.
      destruct (forallb Unicode.isspace u) eqn:E.
      * rewrite (unicode_validate_title_blank u E). split; [discriminate|].
        intros [H _]. exfalso. apply H. now right.
      * rewrite (unicode_validate_title_not_blank u E). split.
        -- intros H. inversion H. split; [|reflexivity].
           intros [-> | Hb]; discriminate.
        -- now intros [_ ->].
    + intros t. destruct (forallb Unicode.isspace u) eqn:E.
      * rewrite (unicode_validate_title_blank u E). discriminate.
      * rewrite (unicode_validate_title_not_blank u E).
        intros H. inversion H. now apply text_strip_not_blank.
  - apply validate_title_code_points.
  - split; reflexivity.
Qed.

(** ** Updates through the handlers and through the service *)

Lemma perform_update_found partial now request pk st instance :
  TaskViewSet_get_object request pk st = Some instance ->
  perform_update partial now request pk st =
  match is_valid partial (data request) with
  | inr vd =>
      (mkResponse (VDict (to_representation (updated now vd instance)))
         HTTP_200_OK,
       ORM.update_row (updated now vd instance) st)
  | inl errors => (mkResponse (errors_value errors) HTTP_400_BAD_REQUEST, st)
  end.
Proof.
  intros H. unfold perform_update. rewrite H.
  destruct (is_valid partial (data request)); reflexivity.
Qed.

(** A supplied key is validated the same way by both kinds of update. *)
Lemma validate_field_supplied (d : dict) (f : field) :
  dict_get (field_name f) d <> None ->
  validate_field false d f = validate_field true d f.
Proof.
  intros H. unfold validate_field, run_validation, run_empty_checks.
  destruct (dict_get (field_name f) d) as [v|]; [reflexivity | congruence].
Qed.

Lemma all_ok_partial (d : dict) :
  (forall f, In f writable_fields -> field_ok true d f) <-> supplied_valid d.
Proof.
  split.
  - intros H f Hf _. now apply H.
  - intros H f Hf e.
    destruct (dict_get (field_name f) d) as [v|] eqn:E.
    + apply H; [assumption | congruence].
    + rewrite (validate_field_missing true d f E). discriminate.
Qed.

Lemma all_ok_full (d : dict) :
  (forall f, In f writable_fields -> field_ok false d f) <->
  required_supplied d /\ supplied_valid d.
Proof.
  split.
  - intros H. split.
    + intros f Hf Hr E. apply (H f Hf [ErrCode "required"]).
      rewrite (validate_field_missing false d f E). now rewrite Hr.
    + intros f Hf Hs e. rewrite <- (validate_field_supplied d f Hs).
      now apply H.
  - intros [Hr Hs] f Hf e.
    destruct (dict_get (field_name f) d) as [v|] eqn:E.
    + rewrite validate_field_supplied by congruence.
      apply Hs; [assumption | congruence].
    + rewrite (validate_field_missing false d f E).
      destruct (required f) eqn:R; [|discriminate].
      exfalso. now apply (Hr f Hf R).
Qed.

Lemma is_valid_ok_iff (partial : bool) (d : dict) :
  (exists vd, is_valid partial d = inr vd) <->
  (forall f, In f writable_fields -> field_ok partial d f).
Proof.
  split.
  - intros [vd H] f Hf e. apply is_valid_inr_inv in H. now apply H.
  - intros H. eexists. apply is_valid_inr. intros f e Hf. now apply H.
Qed.

Lemma perform_update_status partial now request pk st instance :
  TaskViewSet_get_object request pk st = Some instance ->
  (status_code (fst (perform_update partial now request pk st)) = HTTP_200_OK <->
   exists vd, is_valid partial (data request) = inr vd) /\
  (status_code (fst (perform_update partial now request pk st)) = HTTP_200_OK \/
   status_code (fst (perform_update partial now request pk st))
     = HTTP_400_BAD_REQUEST /\
   snd (perform_update partial now request pk st) = st).
Proof.
  intros H. rewrite (perform_update_found partial now request pk st instance H).
  destruct (is_valid partial (data request)) as [errs|vd]; simpl.
  - split; [|now right]. split; [discriminate | intros [? ?]; discriminate].
  - split; [|now left]. split; eauto.
Qed.

Lemma to_representation_get (t : Task) (name : string) :
  In name Meta.fields ->
  dict_get name (to_representation t) =
  Some (represent (build_field name) (getattr t name)).
Proof.
  intros H. simpl in H.
  destruct H as [<- | [<- | [<- | [<- | [<- | [<- | [<- | [<- | []]]]]]]]];
    reflexivity.
Qed.

Lemma to_representation_keys (t : Task) :
  dict_keys (to_representation t) = Meta.fields.
Proof. reflexivity. Qed.

(** The instance a handler looks up is a row of the table under the
    primary key of the URL. *)
Lemma get_object_row request pk st instance :
  TaskViewSet_get_object request pk st = Some instance ->
  In instance (rows st) /\ id instance = pk.
Proof.
  intros H. apply get_some in H. destruct H as [Hin Hid].
  apply get_queryset_matches in Hin. tauto.
Qed.

(** A successful update answers with the representation of the record it
    stored, which keeps [id] and [created_at]; the other rows stay. *)
Lemma perform_update_ok partial now request pk st instance resp st' :
  TaskViewSet_get_object request pk st = Some instance ->
  perform_update partial now request pk st = (resp, st') ->
  status_code resp = HTTP_200_OK ->
  exists vd,
    is_valid partial (data request) = inr vd /\
    resp = mkResponse (VDict (to_representation (updated now vd instance)))
             HTTP_200_OK /\
    st' = ORM.update_row (updated now vd instance) st /\
    ORM.get pk (rows st') = Some (updated now vd instance) /\
    id (updated now vd instance) = id instance /\
    created_at (updated now vd instance) = created_at instance /\
    (forall r, In r (rows st) -> id r <> pk -> In r (rows st')).
Proof.
  intros Hobj Hrun Hcode.
  rewrite (perform_update_found partial now request pk st instance Hobj) in Hrun.
  destruct (is_valid partial (data request)) as [errs|vd] eqn:Hv;
    inversion Hrun; subst; [discriminate Hcode|].
  destruct (get_object_row _ _ _ _ Hobj) as [Hin Hid].
  exists vd. repeat split.
  - rewrite <- Hid, <- (updated_id now vd instance).
    apply get_update_row. exists instance. now rewrite updated_id.
  - apply updated_id.
  - apply updated_created_at.
  - intros r Hr Hne. apply update_row_other; [|assumption].
    rewrite updated_id. congruence.
Qed.

(** C8. A successful partial update answers with the representation of the
    stored record, in which every field the request does not supply has the
    value it had before, in the record and in the response; no update,
    partial or full, changes [id] or [created_at], and the other rows are
    left alone.  On the task titled 'Existing Task', the body
    {status: 'in_progress'} gives a response with that title and the new
    status. *)
Theorem partial_update_frame :
  (forall now request pk st instance resp st',
     TaskViewSet_get_object request pk st = Some instance ->
     TaskViewSet_partial_update now request pk st = (resp, st') ->
     status_code resp = HTTP_200_OK ->
     exists t,
       response_data resp = VDict (to_representation t) /\
       ORM.get pk (rows st') = Some t /\
       (forall name, In name Meta.fields -> name <> "updated_at" ->
          dict_get name (data request) = None ->
          getattr t name = getattr instance name /\
          dict_get name (to_representation t) =
            dict_get name (to_representation instance)) /\
       id t = id instance /\ created_at t = created_at instance /\
       updated_at t = now /\
       (forall r, In r (rows st) -> id r <> pk -> In r (rows st'))) /\
  (forall now request pk st instance resp st',
     TaskViewSet_get_object request pk st = Some instance ->
     TaskViewSet_update now request pk st = (resp, st') ->
     status_code resp = HTTP_200_OK ->
     exists t,
       response_data resp = VDict (to_representation t) /\
       ORM.get pk (rows st') = Some t /\
       id t = id instance /\ created_at t = created_at instance) /\
  (forall now,
     exists t st',
       TaskViewSet_partial_update now
         (plain_request [("status", VStr "in_progress")]) 1 Fixtures.existing
       = (mkResponse (VDict (to_representation t)) HTTP_200_OK, st') /\
       dict_get "title" (to_representation t) = Some (VStr "Existing Task") /\
       dict_get "status" (to_representation t) = Some (VStr "in_progress") /\
       rows st' = [t]).
Proof.
  split; [|split].
  - intros now request pk st instance resp st' Hobj Hrun Hcode.
    destruct (perform_update_ok true now request pk st instance resp st'
                Hobj Hrun Hcode)
      as (vd & Hv & -> & -> & Hget & Hid & Hcr & Hrest).
    exists (updated now vd instance). repeat split; auto.
    + apply is_valid_inr_inv in Hv. destruct Hv as [-> _].
      apply updated_frame; [assumption|].
      now apply partial_validated_keys.
    + rewrite !to_representation_get by assumption. do 2 f_equal.
      apply is_valid_inr_inv in Hv. destruct Hv as [-> _].
      apply updated_frame; [assumption|].
      now apply partial_validated_keys.
  - intros now request pk st instance resp st' Hobj Hrun Hcode.
    destruct (perform_update_ok false now request pk st instance resp st'
                Hobj Hrun Hcode)
      as (vd & Hv & -> & -> & Hget & Hid & Hcr & Hrest).
    exists (updated now vd instance). repeat split; auto.
  - intros now.
    exists (mkTask 1 "Existing Task" "Existing Description" "medium"
              "in_progress" 10 now None).
    eexists. repeat split.
Qed.

Lemma update_task_found now pk d st task :
  ORM.get pk (rows st) = Some task ->
  update_task now pk d st =
  match is_valid true d with
  | inr vd =>
      Returns (updated now vd task) (ORM.update_row (updated now vd task) st)
  | inl errs => Raises (ValidationError errs) st
  end.
Proof.
  intros H. unfold update_task, ORM.all. rewrite H.
  destruct (is_valid true d); reflexivity.
Qed.

(** The bulk update of the service layer validates as a partial update:
    with at least one row selected it returns exactly when every supplied
    field is valid, and when it raises the table is as before. *)
Lemma bulk_update_tasks_partial now ids d st :
  filter (ORM.id_in ids) (rows st) <> [] ->
  ((exists ts st', bulk_update_tasks now ids d st = Returns ts st') <->
     supplied_valid d) /\
  (forall e st', bulk_update_tasks now ids d st = Raises e st' ->
     st' = st /\ exists errs, e = ValidationError errs).
Proof.
  intros Hne. rewrite <- all_ok_partial, <- is_valid_ok_iff.
  unfold bulk_update_tasks, atomic, ORM.filter_id_in, ORM.all.
  destruct (is_valid true d) as [errs|vd] eqn:Hv.
  - destruct (filter (ORM.id_in ids) (rows st)) as [|t hit]; [congruence|].
    rewrite (bulk_loop_invalid now d errs Hv). split.
    + split; intros [? H]; [destruct H as [? H]|]; discriminate.
    + intros e st' H. inversion H; subst. eauto.
  - rewrite (bulk_loop_valid now d vd Hv). split.
    + split; eauto.
    + discriminate.
Qed.

(** C5.  For a task the handler finds: the full update (PUT) succeeds
    exactly when the data supplies every required field and every supplied
    field is valid, and otherwise answers 400 and changes nothing; the
    partial update (PATCH) succeeds exactly when every supplied field is
    valid, and then keeps the fields that are not supplied.  The update of
    the service layer runs the serializer with partial=True: for a task it
    finds, it returns exactly when every supplied field is valid, keeps the
    fields that are not supplied, and leaves the table as it was when it
    raises.  The same holds of every path to the serializer: with either
    value of the flag, validation succeeds exactly when every supplied
    field is valid and, for partial = false, every required field is
    supplied; the update handler behaves so for either flag, and the bulk
    update of the service layer validates as a partial update. *)
Theorem update_validation_modes now request pk st instance :
  TaskViewSet_get_object request pk st = Some instance ->
  let put := TaskViewSet_update now request pk st in
  let patch := TaskViewSet_partial_update now request pk st in
  (status_code (fst put) = HTTP_200_OK <->
     required_supplied (data request) /\ supplied_valid (data request)) /\
  (status_code (fst put) <> HTTP_200_OK ->
     status_code (fst put) = HTTP_400_BAD_REQUEST /\ snd put = st) /\
  (status_code (fst patch) = HTTP_200_OK <-> supplied_valid (data request)) /\
  (status_code (fst patch) <> HTTP_200_OK ->
     status_code (fst patch) = HTTP_400_BAD_REQUEST /\ snd patch = st) /\
  (status_code (fst patch) = HTTP_200_OK ->
     exists t, ORM.get pk (rows (snd patch)) = Some t /\
       forall name, In name Meta.fields -> name <> "updated_at" ->
         dict_get name (data request) = None ->
         getattr t name = getattr instance name) /\
  (forall task, ORM.get pk (rows st) = Some task ->
     ((exists t st', update_task now pk (data request) st = Returns t st') <->
        supplied_valid (data request)) /\
     (forall t st', update_task now pk (data request) st = Returns t st' ->
        ORM.get pk (rows st') = Some t /\
        forall name, In name Meta.fields -> name <> "updated_at" ->
          dict_get name (data request) = None ->
          getattr t name = getattr task name) /\
     (forall e st', update_task now pk (data request) st = Raises e st' ->
        st' = st /\ exists errs, e = ValidationError errs)) /\
  (forall partial d,
     (exists vd, is_valid partial d = inr vd) <->
     (partial = false -> required_supplied d) /\ supplied_valid d) /\
  (forall partial,
     (status_code (fst (perform_update partial now request pk st)) = HTTP_200_OK
      <-> (partial = false -> required_supplied (data request)) /\
          supplied_valid (data request)) /\
     (status_code (fst (perform_update partial now request pk st)) <> HTTP_200_OK ->
        status_code (fst (perform_update partial now request pk st))
          = HTTP_400_BAD_REQUEST /\
        snd (perform_update partial now request pk st) = st)) /\
  (forall ids d,
     filter (ORM.id_in ids) (rows st) <> [] ->
     ((exists ts st', bulk_update_tasks now ids d st = Returns ts st') <->
        supplied_valid d) /\
     (forall e st', bulk_update_tasks now ids d st = Raises e st' ->
        st' = st /\ exists errs, e = ValidationError errs)).
Proof.
  intros Hobj. unfold TaskViewSet_update, TaskViewSet_partial_update.
  cbv zeta.
  assert (Hmode : forall partial d,
            (exists vd, is_valid partial d = inr vd) <->
            (partial = false -> required_supplied d) /\ supplied_valid d).
  { intros partial d. rewrite is_valid_ok_iff. destruct partial.
    - rewrite all_ok_partial. split; [intros H; split; [discriminate | exact H]|].
      now intros [_ H].
    - rewrite all_ok_full. split; intros [Hr Hs]; split; auto. }
  assert (Hany : forall partial,
     (status_code (fst (perform_update partial now request pk st)) = HTTP_200_OK
      <-> (partial = false -> required_supplied (data request)) /\
          supplied_valid (data request)) /\
     (status_code (fst (perform_update partial now request pk st)) <> HTTP_200_OK ->
        status_code (fst (perform_update partial now request pk st))
          = HTTP_400_BAD_REQUEST /\
        snd (perform_update partial now request pk st) = st)).
  { intros partial.
    destruct (perform_update_status partial now request pk st instance Hobj)
      as [H1 H2].
    split.
    - rewrite H1. apply Hmode.
    - intros H. destruct H2 as [? | ?]; [contradiction | assumption]. }
  destruct (perform_update_status false now request pk st instance Hobj)
    as [Hput1 Hput2].
  destruct (perform_update_status true now request pk st instance Hobj)
    as [Hpatch1 Hpatch2].
  set (patch := perform_update true now request pk st) in *.
  split; [|split; [|split; [|split; [|split; [|split; [|split; [|split]]]]]]];
    [| | | | | | exact Hmode | exact Hany
     | intros ids d; apply bulk_update_tasks_partial].
  - rewrite Hput1, is_valid_ok_iff. apply all_ok_full.
  - intros H. destruct Hput2 as [? | ?]; [contradiction | assumption].
  - rewrite Hpatch1, is_valid_ok_iff. apply all_ok_partial.
  - intros H. destruct Hpatch2 as [? | ?]; [contradiction | assumption].
  - intros Hcode.
    destruct (perform_update_ok true now request pk st instance
                (fst patch) (snd patch) Hobj)
      as (vd & Hv & _ & _ & Hget & _); [apply surjective_pairing | exact Hcode |].
    exists (updated now vd instance). split; [exact Hget|].
    intros name _ Hn Hmiss.
    apply is_valid_inr_inv in Hv. destruct Hv as [-> _].
    apply updated_frame; [assumption|].
    now apply partial_validated_keys.
  - intros task Htask. rewrite (update_task_found now pk _ st task Htask).
    destruct (get_some _ _ _ Htask) as [Hin Hid].
    split; [|split].
    + rewrite <- all_ok_partial, <- is_valid_ok_iff.
      destruct (is_valid true (data request)) as [errs|vd].
      * split; intros [? H]; [destruct H as [? H]|]; discriminate.
      * split; eauto.
    + intros t st'.
      destruct (is_valid true (data request)) as [errs|vd] eqn:Hv;
        [discriminate|].
      intros H. inversion H; subst. split.
      * rewrite <- (updated_id now vd task).
        apply get_update_row. exists task. now rewrite updated_id.
      * intros name _ Hn Hmiss.
        apply is_valid_inr_inv in Hv. destruct Hv as [-> _].
        apply updated_frame; [assumption|].
        now apply partial_validated_keys.
    + intros e st'.
      destruct (is_valid true (data request)) as [errs|vd]; [|discriminate].
      intros H. inversion H; subst. eauto.
Qed.

(** ** Bulk update *)

Lemma bulk_view_eq now request st ids :
  dict_get "task_ids" (data request) = Some (VList (map VInt ids)) ->
  TaskViewSet_bulk_update now request st =
  Some
    match bulk_update_tasks now ids (without_task_ids (data request)) st with
    | Returns updated_tasks st' =>
        (mkResponse
           (VDict [("updated_count", VInt (Z.of_nat (List.length updated_tasks)));
                   ("tasks", many_data updated_tasks)])
           HTTP_200_OK, st')
    | Raises e st' =>
        (mkResponse (VDict [("error", VStr (str_of_exn e))])
           HTTP_400_BAD_REQUEST, st')
    end.
Proof.
  intros H. unfold TaskViewSet_bulk_update. rewrite H. simpl.
  now rewrite ints_of_ints.
Qed.

(** C1. On a table with unique primary keys, [bulk_update_tasks] with valid
    fields stores, for every row whose id is in the list, the partial
    update of that row, leaves every other row as it is and returns the
    updated rows; ids without a row select nothing and cause no failure.
    With invalid fields and at least one selected row it raises the
    validation error and the table is unchanged; the handler then answers
    400, and 200 with the count and the updated tasks otherwise. *)
Theorem bulk_update_all_or_nothing now ids update_data st :
  pk_unique st ->
  let hit := filter (ORM.id_in ids) (rows st) in
  (forall vd, is_valid true update_data = inr vd ->
     let st' :=
       mkStore
         (map (fun t => if ORM.id_in ids t then updated now vd t else t)
              (rows st))
         (next_id st) in
     bulk_update_tasks now ids update_data st
       = Returns (map (updated now vd) hit) st' /\
     forall request,
       dict_get "task_ids" (data request) = Some (VList (map VInt ids)) ->
       without_task_ids (data request) = update_data ->
       TaskViewSet_bulk_update now request st =
       Some (mkResponse
               (VDict [("updated_count", VInt (Z.of_nat (List.length hit)));
                       ("tasks", many_data (map (updated now vd) hit))])
               HTTP_200_OK, st')) /\
  (forall errs, is_valid true update_data = inl errs -> hit <> [] ->
     bulk_update_tasks now ids update_data st
       = Raises (ValidationError errs) st /\
     forall request,
       dict_get "task_ids" (data request) = Some (VList (map VInt ids)) ->
       without_task_ids (data request) = update_data ->
       TaskViewSet_bulk_update now request st =
       Some (mkResponse (VDict [("error", VStr (str_of_exn (ValidationError errs)))])
               HTTP_400_BAD_REQUEST, st)) /\
  (hit = [] -> bulk_update_tasks now ids update_data st = Returns [] st).
Proof.
  intros Hnd hit.
  pose proof (bulk_update_tasks_eq now ids update_data st Hnd) as E.
  fold hit in E.
  split; [|split].
  - intros vd Hv st'. rewrite Hv in E. split; [exact E|].
    intros request Hids Hdata.
    rewrite (bulk_view_eq now request st ids Hids), Hdata, E.
    now rewrite length_map.
  - intros errs Hv Hne. rewrite Hv in E.
    destruct hit as [|t hit']; [congruence|]. split; [exact E|].
    intros request Hids Hdata.
    now rewrite (bulk_view_eq now request st ids Hids), Hdata, E.
  - intros Hnil. rewrite E.
    assert (Hrows : forall f : Task -> Task,
              map (fun t => if ORM.id_in ids t then f t else t) (rows st)
              = rows st).
    { intros f. rewrite <- (map_id (rows st)) at 2. apply map_ext_in.
      intros t Ht. destruct (ORM.id_in ids t) eqn:Et; [|reflexivity].
      exfalso. assert (Hin : In t hit) by (apply filter_In; auto).
      rewrite Hnil in Hin. contradiction. }
    rewrite Hnil.
    destruct (is_valid true update_data) as [errs|vd]; [reflexivity|].
    simpl. rewrite Hrows. now destruct st.
Qed.

Lemma filter_id_in_nil (qs : list Task) : ORM.filter_id_in [] qs = [].
Proof.
  unfold ORM.filter_id_in. induction qs as [|t qs IH]; simpl; auto.
Qed.

(** C10. A bulk-update request without the [task_ids] key, or with an
    empty [task_ids] list, is answered 200 with a zero count and no tasks,
    whatever its other fields, and the store is unchanged. *)
Theorem bulk_update_no_ids now request st :
  dict_get "task_ids" (data request) = None \/
  dict_get "task_ids" (data request) = Some (VList []) ->
  TaskViewSet_bulk_update now request st =
  Some (mkResponse (VDict [("updated_count", VInt 0); ("tasks", VList [])])
          HTTP_200_OK, st).
Proof.
  intros H. unfold TaskViewSet_bulk_update.
  assert (E : match dict_get "task_ids" (data request) with
              | Some v => v
              | None => VList []
              end = VList []).
  { destruct H as [-> | ->]; reflexivity. }
  rewrite E. simpl. unfold bulk_update_tasks, atomic.
  now rewrite filter_id_in_nil.
Qed.

(** ** Aggregates and the high-priority listing *)

(** C2. The statistics count all rows, the rows of each status, and the
    rows of high priority whatever their status; on the five-task seed they
    are 5, 2, 1, 2 and 3. *)
Theorem get_task_statistics_counts :
  (forall st,
     let n (q : Task -> bool) := VInt (Z.of_nat (List.length (filter q (rows st)))) in
     get_task_statistics st =
       [("total", VInt (Z.of_nat (List.length (rows st))));
        ("pending", n (fun t => String.eqb (status t) "pending"));
        ("in_progress", n (fun t => String.eqb (status t) "in_progress"));
        ("completed", n (fun t => String.eqb (status t) "completed"));
        ("high_priority", n (fun t => String.eqb (priority t) "high"))] /\
     TaskViewSet_statistics st
       = mkResponse (VDict (get_task_statistics st)) HTTP_200_OK) /\
  get_task_statistics Fixtures.seed5 =
    [("total", VInt 5); ("pending", VInt 2); ("in_progress", VInt 1);
     ("completed", VInt 2); ("high_priority", VInt 3)].
Proof.
  split; [|reflexivity].
  intros st n. split; [|reflexivity].
  unfold get_task_statistics, n, ORM.all.
  rewrite !count_length. now rewrite filter_true.
Qed.

Lemma high_priority_eq (st : Store) :
  get_high_priority_tasks st =
  ORM.order_by_created_desc (filter high_open (rows st)).
Proof.
  unfold get_high_priority_tasks, ORM.filter_status_in, ORM.filter_priority,
    ORM.all.
  rewrite filter_twice. f_equal. apply filter_ext. intros t.
  unfold high_open, Py.str_in. simpl. now rewrite orb_false_r.
Qed.

(** C3. The high-priority listing holds exactly the rows of priority high
    whose status is pending or in_progress (so none that is completed),
    newest first. *)
Theorem get_high_priority_tasks_spec (st : Store) :
  let r := get_high_priority_tasks st in
  Permutation r (filter high_open (rows st)) /\
  StronglySorted newest_first r /\
  (forall t, In t r <->
     In t (rows st) /\ priority t = "high" /\
     (status t = "pending" \/ status t = "in_progress")) /\
  (forall t, status t = "completed" -> ~ In t r) /\
  TaskViewSet_high_priority st = mkResponse (many_data r) HTTP_200_OK.
Proof.
  intros r. unfold r. rewrite high_priority_eq.
  assert (Hin : forall t,
            In t (ORM.order_by_created_desc (filter high_open (rows st))) <->
            In t (rows st) /\ priority t = "high" /\
            (status t = "pending" \/ status t = "in_progress")).
  { intros t. rewrite order_by_in, filter_In. unfold high_open.
    rewrite andb_true_iff, orb_true_iff, !String.eqb_eq. tauto. }
  split; [|split; [|split; [|split]]].
  - symmetry. apply order_by_perm.
  - apply order_by_sorted.
  - exact Hin.
  - intros t Hc Ht. apply Hin in Ht. destruct Ht as (_ & _ & [E | E]);
      rewrite Hc in E; discriminate.
  - unfold TaskViewSet_high_priority. now rewrite high_priority_eq.
Qed.

(** ** Listing with filters *)

Lemma supplied_some (o : option string) (v : string) :
  supplied o = Some v <-> o = Some v /\ v <> "".
Proof.
  destruct o as [[|c s]|]; simpl; split;
    try discriminate; try (intros [H _]; discriminate H).
  - intros [H E]. inversion H. congruence.
  - intros H. inversion H. split; [reflexivity | discriminate].
  - intros [H _]. exact H.
Qed.

Lemma supplied_none (o : option string) :
  supplied o = None <-> o = None \/ o = Some "".
Proof.
  destruct o as [[|c s]|]; simpl; split; auto; try discriminate.
  intros [H | H]; discriminate H.
Qed.

Lemma matches_iff (request : Request) (t : Task) :
  matches request t = true <->
  (forall v, GET_status request = Some v -> v <> "" -> status t = v) /\
  (forall v, GET_priority request = Some v -> v <> "" -> priority t = v).
Proof.
  unfold matches. rewrite andb_true_iff.
  assert (H : forall o (x : string),
            match supplied o with
            | Some v => String.eqb x v
            | None => true
            end = true <->
            (forall v, o = Some v -> v <> "" -> x = v)).
  { intros o x. destruct (supplied o) as [v|] eqn:E.
    - apply supplied_some in E. destruct E as [-> Hv].
      rewrite String.eqb_eq. split.
      + intros -> w Hw _. congruence.
      + intros H. now apply H.
    - apply supplied_none in E. split; [|reflexivity].
      intros _ v Hv Hne. destruct E as [E | E]; congruence. }
  now rewrite !H.
Qed.

Lemma filter_none {A : Type} (p : A -> bool) (l : list A) :
  (forall x, In x l -> p x = false) -> filter p l = [].
Proof.
  induction l as [|x l IH]; simpl; intros H; [reflexivity|].
  rewrite (H x) by now left. apply IH. intros y Hy. apply H. now right.
Qed.

(** C4, as the code has it.  [list] answers 200 with the rows that match
    every filter supplied with a non-empty value, newest first; a filter
    whose value is the empty string is ignored like an absent one, so with
    no non-empty filter every row is returned; on a table whose rows carry
    enumeration values, a non-empty filter value outside the enumeration
    gives the empty list. *)
Theorem list_filters_spec (request : Request) (st : Store) :
  let r := ORM.order_by_created_desc (filter (matches request) (rows st)) in
  TaskViewSet_list request st = mkResponse (many_data r) HTTP_200_OK /\
  Permutation r (filter (matches request) (rows st)) /\
  StronglySorted newest_first r /\
  (forall t, In t r <->
     In t (rows st) /\
     (forall v, GET_status request = Some v -> v <> "" -> status t = v) /\
     (forall v, GET_priority request = Some v -> v <> "" -> priority t = v)) /\
  ((GET_status request = None \/ GET_status request = Some "") ->
   (GET_priority request = None \/ GET_priority request = Some "") ->
   Permutation r (rows st)) /\
  (choices_ok st ->
   forall v, v <> "" ->
     (GET_status request = Some v /\ Py.str_in v valid_statuses = false) \/
     (GET_priority request = Some v /\ Py.str_in v valid_priorities = false) ->
     r = []).
Proof.
  intros r. unfold r.
  split; [apply list_eq|].
  split; [symmetry; apply order_by_perm|].
  split; [apply order_by_sorted|].
  split; [|split].
  - intros t. rewrite order_by_in, filter_In, matches_iff. tauto.
  - intros Hs Hp. rewrite <- order_by_perm.
    rewrite filter_id; [reflexivity|].
    intros t _. unfold matches.
    apply supplied_none in Hs, Hp. now rewrite Hs, Hp.
  - intros Hok v Hv Hbad.
    rewrite filter_none; [reflexivity|].
    intros t Ht. destruct (matches request t) eqn:E; [|reflexivity].
    apply matches_iff in E. destruct E as [Es Ep].
    destruct (Hok t Ht) as [Hpr Hst].
    destruct Hbad as [[Hg Hn] | [Hg Hn]].
    + rewrite (Es v Hg Hv) in Hst. congruence.
    + rewrite (Ep v Hg Hv) in Hpr. congruence.
Qed.

(** ** Deleting *)

(** X1. Deleting a task the handler finds answers 204 and removes every
    row under its primary key: a later lookup fails, and a second delete
    answers 404 and changes nothing; a task the handler does not find
    gives 404 and leaves the store. *)
Lemma destroy_removes (request : Request) (pk : Z) (st : Store) :
  match TaskViewSet_get_object request pk st with
  | Some instance =>
      status_code (fst (TaskViewSet_destroy request pk st))
        = HTTP_204_NO_CONTENT /\
      (forall request', TaskViewSet_get_object request' pk
                          (snd (TaskViewSet_destroy request pk st)) = None) /\
      (forall request',
         TaskViewSet_retrieve request' pk (snd (TaskViewSet_destroy request pk st))
         = not_found) /\
      (forall request',
         TaskViewSet_destroy request' pk (snd (TaskViewSet_destroy request pk st))
         = (not_found, snd (TaskViewSet_destroy request pk st)))
  | None => TaskViewSet_destroy request pk st = (not_found, st)
  end.
Proof.
  unfold TaskViewSet_destroy.
  destruct (TaskViewSet_get_object request pk st) as [instance|] eqn:E;
    [|reflexivity].
  simpl. destruct (get_object_row _ _ _ _ E) as [_ Hid].
  assert (Hgone : forall request',
            TaskViewSet_get_object request' pk (ORM.delete_row instance st)
            = None).
  { intros request'. apply get_none. intros t Ht.
    apply get_queryset_matches in Ht. destruct Ht as [Ht _].
    simpl in Ht. apply filter_In in Ht. destruct Ht as [_ Ht].
    apply negb_true_iff, Z.eqb_neq in Ht. congruence. }
  split; [reflexivity|]. split; [exact Hgone|]. split.
  - intros request'. unfold TaskViewSet_retrieve. now rewrite Hgone.
  - intros request'. now rewrite Hgone.
Qed.

(** C6, at the task of the test suite: the handler deletes the row and
    answers 204, and the response it builds carries a message object as
    its data. *)
Theorem destroy_response_body :
  TaskViewSet_destroy (plain_request []) 1 Fixtures.existing =
  (mkResponse (VDict [("message", VStr "Task deleted successfully")])
     HTTP_204_NO_CONTENT,
   mkStore [] 2) /\
  (forall request pk st instance,
     TaskViewSet_get_object request pk st = Some instance ->
     response_data (fst (TaskViewSet_destroy request pk st))
     = VDict [("message", VStr "Task deleted successfully")]).
Proof.
  split; [reflexivity|].
  intros request pk st instance H. unfold TaskViewSet_destroy. now rewrite H.
Qed.

(** ** The fields of a serialized task *)

Lemma many_data_objects (ts : list Task) :
  exists l, many_data ts = VList l /\ Forall task_object l.
Proof.
  eexists. split; [reflexivity|].
  apply Forall_forall. intros v Hv. apply in_map_iff in Hv.
  destruct Hv as (t & <- & _). exists (to_representation t). auto.
Qed.

Lemma representation_object (t : Task) : task_object (VDict (to_representation t)).
Proof. exists (to_representation t). auto. Qed.

(** C9, as the code has it.  Every Task object the view set returns --
    from list, retrieve, create, full and partial update, the high-priority
    listing and the bulk update -- has exactly the eight keys of
    [Meta.fields]; the object [simple_create_task] returns has these eight
    keys and the key "message". *)
Theorem serialized_fields_exact :
  Meta.fields = ["id"; "title"; "description"; "priority"; "status";
                 "created_at"; "updated_at"; "due_date"] /\
  (forall request st,
     exists l, response_data (TaskViewSet_list request st) = VList l /\
               Forall task_object l) /\
  (forall request pk st,
     status_code (TaskViewSet_retrieve request pk st) = HTTP_200_OK ->
     task_object (response_data (TaskViewSet_retrieve request pk st))) /\
  (forall now request st,
     status_code (fst (TaskViewSet_create now request st)) = HTTP_201_CREATED ->
     task_object (response_data (fst (TaskViewSet_create now request st)))) /\
  (forall now request pk st,
     status_code (fst (TaskViewSet_update now request pk st)) = HTTP_200_OK ->
     task_object (response_data (fst (TaskViewSet_update now request pk st)))) /\
  (forall now request pk st,
     status_code (fst (TaskViewSet_partial_update now request pk st))
       = HTTP_200_OK ->
     task_object
       (response_data (fst (TaskViewSet_partial_update now request pk st)))) /\
  (forall st,
     exists l, response_data (TaskViewSet_high_priority st) = VList l /\
               Forall task_object l) /\
  (forall now request st resp st',
     TaskViewSet_bulk_update now request st = Some (resp, st') ->
     status_code resp = HTTP_200_OK ->
     exists n l,
       response_data resp = VDict [("updated_count", VInt n); ("tasks", VList l)] /\
       Forall task_object l) /\
  (forall now request st,
     status_code (fst (simple_create_task now request st)) = HTTP_201_CREATED ->
     exists d,
       response_data (fst (simple_create_task now request st)) = VDict d /\
       dict_keys d = (Meta.fields ++ ["message"])%list).
Proof.
  assert (Hupd : forall partial now request pk st,
            status_code (fst (perform_update partial now request pk st))
              = HTTP_200_OK ->
            task_object
              (response_data (fst (perform_update partial now request pk st)))).
  { intros partial now request pk st. unfold perform_update.
    destruct (TaskViewSet_get_object request pk st); [|discriminate].
    destruct (is_valid partial (data request)); [discriminate|].
    intros _. apply representation_object. }
  repeat match goal with |- _ /\ _ => split end.
  - reflexivity.
  - intros request st. unfold TaskViewSet_list. apply many_data_objects.
  - intros request pk st. unfold TaskViewSet_retrieve.
    destruct (TaskViewSet_get_object request pk st); [|discriminate].
    intros _. apply representation_object.
  - intros now request st. unfold TaskViewSet_create.
    destruct (is_valid false (data request)); [discriminate|].
    intros _. apply representation_object.
  - intros now request pk st. apply Hupd.
  - intros now request pk st. apply Hupd.
  - intros st. apply many_data_objects.
  - intros now request st resp st'. unfold TaskViewSet_bulk_update.
    destruct (ids_of_value _) as [ids|]; [|discriminate].
    destruct (bulk_update_tasks now ids _ st) as [ts st1 | e st1];
      intros H; inversion H; subst; [|discriminate].
    intros _. destruct (many_data_objects ts) as (l & -> & Hl).
    now exists (Z.of_nat (List.length ts)), l.
  - intros now request st. unfold simple_create_task.
    destruct (create_task now (data request) st) as [t st1 | e st1];
      [|discriminate].
    intros _. eexists. split; reflexivity.
Qed.

(** ** What validated data holds *)

Lemma writable_build (f : field) :
  In f writable_fields -> f = build_field (field_name f).
Proof.
  intros Hin. simpl in Hin.
  destruct Hin as [<- | [<- | [<- | [<- | [<- | []]]]]]; reflexivity.
Qed.

Lemma validated_entry (partial : bool) (d vd : dict) k v :
  is_valid partial d = inr vd -> In (k, v) vd ->
  In (build_field k) writable_fields /\
  validate_field partial d (build_field k) = FValue v.
Proof.
  intros Hv Hin. apply is_valid_inr_inv in Hv. destruct Hv as [-> _].
  apply collect_values in Hin. destruct Hin as (f & Hf & <- & Hval).
  rewrite <- (writable_build f Hf). auto.
Qed.

Lemma collect_has_value (partial : bool) (d : dict) (fs : list field) f v :
  In f fs -> validate_field partial d f = FValue v ->
  In (field_name f, v) (snd (collect partial d fs)).
Proof.
  induction fs as [|g fs IH]; simpl; [tauto|].
  intros Hin Hv. destruct (collect partial d fs) as [errs ret]. simpl in IH.
  destruct Hin as [-> | Hin].
  - rewrite Hv. now left.
  - destruct (validate_field partial d g); simpl; auto.
Qed.

Lemma lstrip_length (s : string) :
  (String.length (Py.lstrip s) <= String.length s)%nat.
Proof.
  induction s as [|c s IH]; simpl; [lia|].
  destruct (Py.isspace c); simpl; lia.
Qed.

Lemma rstrip_length (s : string) :
  (String.length (Py.rstrip s) <= String.length s)%nat.
Proof.
  induction s as [|c s IH]; simpl; [lia|].
  destruct (Py.rstrip s); [destruct (Py.isspace c)|]; simpl in *; lia.
Qed.

Lemma strip_length (s : string) :
  (String.length (Py.strip s) <= String.length s)%nat.
Proof.
  unfold Py.strip. pose proof (rstrip_length (Py.lstrip s)).
  pose proof (lstrip_length s). lia.
Qed.

Lemma str_of_int_not_blank (n : Z) : Py.all_space (Py.str_of_int n) = false.
Proof.
  unfold Py.str_of_int.
  destruct (Z.to_int n) as [d | d]; destruct d; reflexivity.
Qed.

(** The text field of the title hands on a stripped text of at most 200
    characters that is not blank. *)
Lemma run_validation_title_shape (partial : bool) (data : option value) (s : string) :
  run_validation partial (build_field "title") data = FValue (VStr s) ->
  (String.length s <= 200)%nat /\ Py.strip s = s /\ Py.all_space s = false.
Proof.
  assert (Hchk : forall x,
            match
              ((if (200 <? String.length (Py.strip x))%nat
                then [ErrCode "max_length"] else []) ++
               (if has_nul (Py.strip x)
                then [ErrCode "null_characters_not_allowed"] else []))%list
            with
            | [] => FValue (VStr (Py.strip x))
            | e :: l => FError (e :: l)
            end = FValue (VStr s) ->
            Py.all_space x = false ->
            (String.length s <= 200)%nat /\ Py.strip s = s /\
            Py.all_space s = false).
  { intros x.
    destruct (Nat.ltb_spec 200 (String.length (Py.strip x))); simpl;
      [discriminate|].
    destruct (has_nul (Py.strip x)); simpl; [discriminate|].
    intros E Hx. inversion E; subst.
    split; [assumption|]. split; [apply strip_idem | now apply all_space_strip]. }
  unfold run_validation, run_empty_checks, to_internal_value. simpl.
  destruct data as [[| b | n | x | t | l | d]|]; simpl; try discriminate.
  - intros H. apply (Hchk _ H). apply str_of_int_not_blank.
  - destruct (Py.all_space x) eqn:Ex; [discriminate|].
    intros H. now apply (Hchk _ H).
  - destruct partial; discriminate.
Qed.

Lemma title_entry_shape (partial : bool) (d : dict) (v : value) :
  validate_field partial d (build_field "title") = FValue v ->
  exists t, v = VStr t /\ (String.length t <= 200)%nat /\ Py.strip t = t /\
            Py.all_space t = false.
Proof.
  unfold validate_field.
  destruct (run_validation partial (build_field "title")
              (dict_get (field_name (build_field "title")) d)) as [v0| |e] eqn:R;
    try discriminate.
  destruct (run_validation_title _ _ _ R) as [s ->].
  apply run_validation_title_shape in R. destruct R as (Hlen & Hstrip & Hsp).
  simpl. rewrite (validate_title_not_blank s Hsp), Hstrip.
  intros H. inversion H; subst. exists s. auto.
Qed.

Lemma choice_entry_shape (partial : bool) (d : dict) (name : string)
  (choices : list string) (m : string -> validated string) (v : value) :
  kind (build_field name) = ChoiceField choices ->
  allow_null (build_field name) = false ->
  validate_method name = Some m ->
  (forall s, Py.str_in s choices = true -> m s = Valid s) ->
  validate_field partial d (build_field name) = FValue v ->
  exists s, v = VStr s /\ Py.str_in s choices = true.
Proof.
  intros Hk Hn Hm Hok. unfold validate_field, run_validation, run_empty_checks,
    to_internal_value.
  rewrite Hk, Hn.
  replace (field_name (build_field name)) with name
    by (unfold build_field; destruct (model_field name) as [[? ?] ?]; reflexivity).
  rewrite Hm.
  destruct (dict_get name d) as [[| b | n | s | t | l | x]|]; simpl;
    try discriminate.
  - destruct (Py.str_in s choices) eqn:E; [|discriminate].
    rewrite (Hok s E). intros H. inversion H; subst. eauto.
  - destruct partial; [discriminate|].
    destruct (required (build_field name)); discriminate.
Qed.

Lemma priority_entry_shape (partial : bool) (d : dict) (v : value) :
  validate_field partial d (build_field "priority") = FValue v ->
  exists s, v = VStr s /\ Py.str_in s valid_priorities = true.
Proof.
  apply (choice_entry_shape partial d "priority" valid_priorities
           validate_priority); try reflexivity.
  intros s H. unfold validate_priority. now rewrite H.
Qed.

Lemma status_entry_shape (partial : bool) (d : dict) (v : value) :
  validate_field partial d (build_field "status") = FValue v ->
  exists s, v = VStr s /\ Py.str_in s valid_statuses = true.
Proof.
  apply (choice_entry_shape partial d "status" valid_statuses
           validate_status); try reflexivity.
  intros s H. unfold validate_status. now rewrite H.
Qed.

(** ** Attributes after [set_all] *)

Section SetAll.

Variable P : string -> Prop.

(** A column keeps a property that holds of its old value and of every
    validated entry for it. *)
Lemma set_all_keeps (col : Task -> string) (name : string) :
  (forall t k v, k <> name -> col (setattr t k v) = col t) ->
  (forall t v, col (setattr t name v) = col t \/
               exists s, v = VStr s /\ col (setattr t name v) = s) ->
  forall vd t,
    P (col t) ->
    (forall s, In (name, VStr s) vd -> P s) ->
    P (col (set_all t vd)).
Proof.
  intros Hother Hset. unfold set_all.
  induction vd as [|[k v] vd IH]; intros t Ht Hin; simpl; [assumption|].
  apply IH.
  - destruct (String.eqb_spec k name) as [-> | Hne].
    + destruct (Hset t v) as [E | (s & -> & E)]; rewrite E; [assumption|].
      apply Hin. now left.
    + now rewrite Hother.
  - intros s Hs. apply Hin. now right.
Qed.

Lemma set_all_untouched (col : Task -> string) (name : string) :
  (forall t k v, k <> name -> col (setattr t k v) = col t) ->
  forall vd t, dict_get name vd = None -> col (set_all t vd) = col t.
Proof.
  intros Hother. unfold set_all.
  induction vd as [|[k v] vd IH]; intros t; simpl; [reflexivity|].
  destruct (String.eqb_spec name k) as [-> | Hne]; [discriminate|].
  intros H. rewrite (IH _ H). apply Hother. congruence.
Qed.

(** A column that has a validated entry takes a value with the property
    of the entries, whatever it held before. *)
Lemma set_all_sets (col : Task -> string) (name : string) :
  (forall t k v, k <> name -> col (setattr t k v) = col t) ->
  (forall t s, col (setattr t name (VStr s)) = s) ->
  forall vd t,
    (exists v, In (name, v) vd) ->
    (forall v, In (name, v) vd -> exists s, v = VStr s /\ P s) ->
    P (col (set_all t vd)).
Proof.
  intros Hother Hset.
  induction vd as [|[k v] vd IH]; intros t [w Hw] Hin; [contradiction|].
  change (set_all t ((k, v) :: vd)) with (set_all (setattr t k v) vd).
  destruct (dict_get name vd) as [w'|] eqn:E.
  - apply IH.
    + exists w'. now apply dict_get_in.
    + intros v' Hv'. apply Hin. now right.
  - destruct Hw as [Hw | Hw].
    + inversion Hw; subst.
      destruct (Hin w (or_introl eq_refl)) as (s & -> & Hs).
      rewrite (set_all_untouched col name Hother vd _ E). now rewrite Hset.
    + exfalso. apply (proj1 (dict_get_none name vd) E w Hw).
Qed.

End SetAll.

(** ** Rows written through the serializer *)

Lemma setattr_title_other t k v : k <> "title" -> title (setattr t k v) = title t.
Proof. intros H. destruct v; simpl; split_eqb; reflexivity. Qed.

Lemma setattr_priority_other t k v :
  k <> "priority" -> priority (setattr t k v) = priority t.
Proof. intros H. destruct v; simpl; split_eqb; reflexivity. Qed.

Lemma setattr_status_other t k v :
  k <> "status" -> status (setattr t k v) = status t.
Proof. intros H. destruct v; simpl; split_eqb; reflexivity. Qed.

Lemma setattr_str_cases (col : Task -> string) (name : string) :
  (forall t s, col (setattr t name (VStr s)) = s) ->
  (forall t v, (forall s, v <> VStr s) -> col (setattr t name v) = col t) ->
  forall t v, col (setattr t name v) = col t \/
              exists s, v = VStr s /\ col (setattr t name v) = s.
Proof.
  intros Hs Ho t v. destruct v; try (left; apply Ho; intros; discriminate).
  right. eauto.
Qed.

Lemma title_cases t v :
  title (setattr t "title" v) = title t \/
  exists s, v = VStr s /\ title (setattr t "title" v) = s.
Proof.
  apply (setattr_str_cases title "title"); [reflexivity|].
  intros t0 v0 H. destruct v0; try reflexivity. exfalso. now apply (H s).
Qed.

Lemma priority_cases t v :
  priority (setattr t "priority" v) = priority t \/
  exists s, v = VStr s /\ priority (setattr t "priority" v) = s.
Proof.
  apply (setattr_str_cases priority "priority"); [reflexivity|].
  intros t0 v0 H. destruct v0; try reflexivity. exfalso. now apply (H s).
Qed.

Lemma status_cases t v :
  status (setattr t "status" v) = status t \/
  exists s, v = VStr s /\ status (setattr t "status" v) = s.
Proof.
  apply (setattr_str_cases status "status"); [reflexivity|].
  intros t0 v0 H. destruct v0; try reflexivity. exfalso. now apply (H s).
Qed.

Lemma validated_title_ok partial d vd v :
  is_valid partial d = inr vd -> In ("title", v) vd ->
  exists s, v = VStr s /\ title_ok s.
Proof.
  intros Hv Hin. destruct (validated_entry partial d vd _ _ Hv Hin) as [_ H].
  apply title_entry_shape in H. destruct H as (t & -> & Hl & _ & Hs).
  exists t. unfold title_ok. auto.
Qed.

Lemma validated_priority_ok partial d vd v :
  is_valid partial d = inr vd -> In ("priority", v) vd ->
  exists s, v = VStr s /\ Py.str_in s valid_priorities = true.
Proof.
  intros Hv Hin. destruct (validated_entry partial d vd _ _ Hv Hin) as [_ H].
  now apply priority_entry_shape in H.
Qed.

Lemma validated_status_ok partial d vd v :
  is_valid partial d = inr vd -> In ("status", v) vd ->
  exists s, v = VStr s /\ Py.str_in s valid_statuses = true.
Proof.
  intros Hv Hin. destruct (validated_entry partial d vd _ _ Hv Hin) as [_ H].
  now apply status_entry_shape in H.
Qed.

Lemma set_all_choices_ok partial d vd t :
  is_valid partial d = inr vd ->
  Py.str_in (priority t) valid_priorities = true ->
  Py.str_in (status t) valid_statuses = true ->
  Py.str_in (priority (set_all t vd)) valid_priorities = true /\
  Py.str_in (status (set_all t vd)) valid_statuses = true.
Proof.
  intros Hv Hp Hs. split.
  - apply (set_all_keeps (fun s => Py.str_in s valid_priorities = true)
             priority "priority" setattr_priority_other priority_cases);
      [assumption|].
    intros s Hin. destruct (validated_priority_ok _ _ _ _ Hv Hin) as (s' & E & H).
    now inversion E; subst.
  - apply (set_all_keeps (fun s => Py.str_in s valid_statuses = true)
             status "status" setattr_status_other status_cases);
      [assumption|].
    intros s Hin. destruct (validated_status_ok _ _ _ _ Hv Hin) as (s' & E & H).
    now inversion E; subst.
Qed.

(** An update through the serializer keeps a good row good. *)
Lemma updated_row_ok partial d vd now t :
  is_valid partial d = inr vd -> row_ok t -> row_ok (updated now vd t).
Proof.
  intros Hv (Hsp & Hlen & Hp & Hs).
  destruct (set_all_choices_ok partial d vd t Hv Hp Hs) as [Hp' Hs'].
  assert (Ht : title_ok (title (set_all t vd))).
  { apply (set_all_keeps title_ok title "title" setattr_title_other title_cases).
    - split; assumption.
    - intros s Hin. destruct (validated_title_ok _ _ _ _ Hv Hin) as (s' & E & H).
      now inversion E; subst. }
  destruct Ht as [Ht1 Ht2]. unfold row_ok, updated. simpl. auto.
Qed.

(** A full validation that succeeds has validated the title. *)
Lemma full_valid_has_title d vd :
  is_valid false d = inr vd -> exists v, In ("title", v) vd.
Proof.
  intros Hv. apply is_valid_inr_inv in Hv. destruct Hv as [-> Hok].
  destruct (validate_field false d (build_field "title")) as [v| |e] eqn:E.
  - exists v. apply (collect_has_value false d writable_fields _ _ title_writable E).
  - exfalso. destruct (dict_get "title" d) as [v|] eqn:G.
    + revert E. unfold validate_field, run_validation, run_empty_checks,
        to_internal_value. simpl. rewrite G.
      destruct v as [| b | n | x | t | l | y]; simpl; try discriminate;
        repeat match goal with
        | |- context [if ?c then _ else _] => destruct c; simpl
        end; try discriminate;
        match goal with
        | |- context [validate_title ?z] => destruct (validate_title z)
        end; discriminate.
    + rewrite (validate_field_missing false d (build_field "title") G) in E.
      discriminate.
  - exfalso. exact (Hok _ e title_writable E).
Qed.

(** What a create through the serializer stores is a good row. *)
Lemma created_row_ok d vd now :
  is_valid false d = inr vd -> row_ok (set_all (new_instance now) vd).
Proof.
  intros Hv.
  destruct (set_all_choices_ok false d vd (new_instance now) Hv eq_refl eq_refl)
    as [Hp Hs].
  assert (Ht : title_ok (title (set_all (new_instance now) vd))).
  { apply (set_all_sets title_ok title "title" setattr_title_other).
    - reflexivity.
    - now apply (full_valid_has_title d).
    - intros v Hin. now apply (validated_title_ok false d vd). }
  destruct Ht as [Ht1 Ht2]. unfold row_ok. auto.
Qed.

(** ** Primary keys *)

Lemma nodup_ids_filter (p : Task -> bool) (l : list Task) :
  NoDup (map id l) -> NoDup (map id (filter p l)).
Proof.
  induction l as [|t l IH]; simpl; intros H; [constructor|].
  inversion H as [|x l' Hnotin Hnd]; subst.
  destruct (p t); simpl; [constructor|]; auto.
  intros Hin. apply Hnotin. apply in_map_iff in Hin.
  destruct Hin as (u & E & Hu). apply filter_In in Hu.
  apply in_map_iff. exists u. tauto.
Qed.

(** Under unique primary keys, a lookup finds the row with the key. *)
Lemma get_unique (l : list Task) (t : Task) :
  NoDup (map id l) -> In t l -> ORM.get (id t) l = Some t.
Proof.
  unfold ORM.get. induction l as [|u l IH]; intros Hnd Hin; [contradiction|].
  simpl in *. inversion Hnd as [|x l' Hnotin Hnd']; subst.
  destruct Hin as [-> | Hin].
  - now rewrite Z.eqb_refl.
  - destruct (Z.eqb_spec (id u) (id t)) as [E | _]; [|now apply IH].
    exfalso. apply Hnotin. rewrite E. now apply in_map.
Qed.

(** ... so the order of the rows does not matter to it. *)
Lemma get_permutation (l l' : list Task) (pk : Z) :
  NoDup (map id l) -> Permutation l l' -> ORM.get pk l' = ORM.get pk l.
Proof.
  intros Hnd Hp.
  assert (Hnd' : NoDup (map id l')).
  { eapply Permutation_NoDup; [|exact Hnd]. now apply Permutation_map. }
  destruct (ORM.get pk l) as [t|] eqn:E.
  - apply get_some in E. destruct E as [Hin <-].
    apply get_unique; [assumption|]. eapply Permutation_in; eauto.
  - apply get_none. intros t Hin.
    apply (proj1 (get_none pk l) E). eapply Permutation_in; [|exact Hin].
    now symmetry.
Qed.

Lemma update_row_ids (t : Task) (st : Store) :
  map id (rows (ORM.update_row t st)) = map id (rows st).
Proof.
  simpl. rewrite map_map. apply map_ext. intros r.
  destruct (Z.eqb_spec (id r) (id t)); congruence.
Qed.

Lemma update_row_in (t : Task) (st : Store) (r : Task) :
  In r (rows (ORM.update_row t st)) -> r = t \/ In r (rows st).
Proof.
  simpl. intros H. apply in_map_iff in H. destruct H as (u & E & Hu).
  destruct (Z.eqb (id u) (id t)); subst; auto.
Qed.

(** ** The table invariant under the writes *)

Lemma store_ok_update (t : Task) (st : Store) :
  store_ok st -> row_ok t -> store_ok (ORM.update_row t st).
Proof.
  intros (Hpk & Hid & Hrows) Ht. split; [|split].
  - unfold pk_unique. now rewrite update_row_ids.
  - intros r Hr.
    assert (Hin : In (id r) (map id (rows (ORM.update_row t st))))
      by now apply in_map.
    rewrite update_row_ids in Hin. apply in_map_iff in Hin.
    destruct Hin as (u & <- & Hu). now apply Hid.
  - intros r Hr. apply update_row_in in Hr. destruct Hr as [-> | Hr]; auto.
Qed.

Lemma store_ok_delete (t : Task) (st : Store) :
  store_ok st -> store_ok (ORM.delete_row t st).
Proof.
  intros (Hpk & Hid & Hrows). split; [|split].
  - unfold pk_unique. simpl. now apply nodup_ids_filter.
  - intros r Hr. simpl in Hr. apply filter_In in Hr. now apply Hid.
  - intros r Hr. simpl in Hr. apply filter_In in Hr. now apply Hrows.
Qed.

Lemma store_ok_insert (t : Task) (st : Store) :
  store_ok st -> row_ok t -> store_ok (snd (ORM.insert_row t st)).
Proof.
  intros (Hpk & Hid & Hrows) Ht. split; [|split].
  - unfold pk_unique. simpl. rewrite map_app. apply NoDup_app.
    + exact Hpk.
    + simpl. constructor; [tauto | constructor].
    + intros a Ha [<- | []]. apply in_map_iff in Ha.
      destruct Ha as (u & E & Hu). apply Hid in Hu. simpl in E. lia.
  - intros r Hr. simpl in *. apply in_app_iff in Hr.
    destruct Hr as [Hr | [<- | []]]; [apply Hid in Hr|simpl]; lia.
  - intros r Hr. simpl in Hr. apply in_app_iff in Hr.
    destruct Hr as [Hr | [<- | []]]; [now apply Hrows|]. exact Ht.
Qed.

Lemma store_ok_map (f : Task -> Task) (st : Store) :
  store_ok st ->
  (forall t, id (f t) = id t) ->
  (forall t, In t (rows st) -> row_ok (f t)) ->
  store_ok (mkStore (map f (rows st)) (next_id st)).
Proof.
  intros (Hpk & Hid & Hrows) Hf Hok. split; [|split].
  - unfold pk_unique. simpl. rewrite map_map.
    rewrite (map_ext _ id Hf). exact Hpk.
  - intros r Hr. simpl in *. apply in_map_iff in Hr.
    destruct Hr as (u & <- & Hu). rewrite Hf. now apply Hid.
  - intros r Hr. simpl in Hr. apply in_map_iff in Hr.
    destruct Hr as (u & <- & Hu). now apply Hok.
Qed.

Lemma store_ok_perform_update partial now request pk st :
  store_ok st -> store_ok (snd (perform_update partial now request pk st)).
Proof.
  intros Hok. unfold perform_update.
  destruct (TaskViewSet_get_object request pk st) as [instance|] eqn:E;
    [|exact Hok].
  destruct (is_valid partial (data request)) as [errs|vd] eqn:Hv; [exact Hok|].
  simpl. apply store_ok_update; [exact Hok|].
  apply (updated_row_ok partial (data request) vd now instance Hv).
  apply get_object_row in E. destruct E as [Hin _]. now apply Hok.
Qed.

Lemma store_ok_create_task now d st :
  store_ok st -> store_ok (outcome_store (create_task now d st)).
Proof.
  intros Hok. unfold create_task.
  destruct (is_valid false d) as [errs|vd] eqn:Hv; [exact Hok|].
  unfold save_create.
  change (store_ok (snd (ORM.insert_row (set_all (new_instance now) vd) st))).
  apply store_ok_insert; [exact Hok|]. now apply (created_row_ok d).
Qed.

Lemma store_ok_bulk_update_tasks now ids d st :
  store_ok st -> store_ok (outcome_store (bulk_update_tasks now ids d st)).
Proof.
  intros Hok. rewrite bulk_update_tasks_eq by apply Hok.
  destruct (is_valid true d) as [errs|vd] eqn:Hv.
  - destruct (filter (ORM.id_in ids) (rows st)); exact Hok.
  - simpl. apply store_ok_map; [exact Hok | |].
    + intros t. destruct (ORM.id_in ids t); [apply updated_id | reflexivity].
    + intros t Ht. destruct (ORM.id_in ids t); [|now apply Hok].
      apply (updated_row_ok true d vd now t Hv). now apply Hok.
Qed.

(** X2. The handlers that write keep the table well-formed: starting from
    a table with unique primary keys below the next key, whose rows have a
    non-blank title of at most 200 characters and a priority and a status
    of the enumerations, create, simple_create_task, update,
    partial_update and destroy leave such a table whatever the request,
    and so does bulk_update on every request it is modelled for: when
    task_ids is absent or an array of integers it answers, and the table
    it leaves is well-formed. *)
Theorem handlers_keep_store_ok (st : Store) :
  store_ok st ->
  (forall now request, store_ok (snd (TaskViewSet_create now request st))) /\
  (forall now request, store_ok (snd (simple_create_task now request st))) /\
  (forall now request pk,
     store_ok (snd (TaskViewSet_update now request pk st))) /\
  (forall now request pk,
     store_ok (snd (TaskViewSet_partial_update now request pk st))) /\
  (forall request pk, store_ok (snd (TaskViewSet_destroy request pk st))) /\
  (forall now request resp st',
     TaskViewSet_bulk_update now request st = Some (resp, st') -> store_ok st') /\
  (forall now request ids,
     dict_get "task_ids" (data request) = None \/
     dict_get "task_ids" (data request) = Some (VList (map VInt ids)) ->
     exists resp st',
       TaskViewSet_bulk_update now request st = Some (resp, st') /\
       store_ok st').
Proof.
  intros Hok. repeat match goal with |- _ /\ _ => split end.
  - intros now request. unfold TaskViewSet_create.
    pose proof (store_ok_create_task now (data request) st Hok) as H.
    unfold create_task in H.
    destruct (is_valid false (data request)) as [errs|vd]; [exact Hok|].
    exact H.
  - intros now request. unfold simple_create_task.
    pose proof (store_ok_create_task now (data request) st Hok) as H.
    destruct (create_task now (data request) st); exact H.
  - intros now request pk. now apply store_ok_perform_update.
  - intros now request pk. now apply store_ok_perform_update.
  - intros request pk. unfold TaskViewSet_destroy.
    destruct (TaskViewSet_get_object request pk st); [|exact Hok].
    simpl. now apply store_ok_delete.
  - intros now request resp st'. unfold TaskViewSet_bulk_update.
    destruct (ids_of_value _) as [ids|]; [|discriminate].
    pose proof (store_ok_bulk_update_tasks now ids
                  (filter (fun kv => negb (String.eqb (fst kv) "task_ids"))
                     (data request)) st Hok) as H.
    destruct (bulk_update_tasks now ids _ st); intros E; inversion E; subst;
      exact H.
  - intros now request ids [Hnone | Hids].
    + unfold TaskViewSet_bulk_update. rewrite Hnone. simpl.
      pose proof (store_ok_bulk_update_tasks now []
                    (filter (fun kv => negb (String.eqb (fst kv) "task_ids"))
                       (data request)) st Hok) as H.
      destruct (bulk_update_tasks now [] _ st); do 2 eexists;
        (split; [reflexivity | exact H]).
    + rewrite (bulk_view_eq now request st ids Hids).
      pose proof (store_ok_bulk_update_tasks now ids
                    (without_task_ids (data request)) st Hok) as H.
      destruct (bulk_update_tasks now ids _ st); do 2 eexists;
        (split; [reflexivity | exact H]).
Qed.

Lemma delete_task_store (pk : Z) (st : Store) :
  outcome_store (delete_task pk st) =
  mkStore (filter (fun r => negb (Z.eqb (id r) pk)) (rows st)) (next_id st).
Proof.
  unfold delete_task, ORM.all.
  destruct (ORM.get pk (rows st)) as [t|] eqn:E; simpl.
  - apply get_some in E. destruct E as [_ <-]. reflexivity.
  - rewrite filter_id; [now destruct st|].
    intros r Hr. apply negb_true_iff, Z.eqb_neq.
    now apply (proj1 (get_none pk (rows st)) E).
Qed.

(** X3. The service layer keeps the table well-formed as well: whether
    they return or raise, create_task, update_task, delete_task and
    bulk_update_tasks leave a well-formed table when they start from
    one. *)
Theorem services_keep_store_ok (st : Store) :
  store_ok st ->
  (forall now d, store_ok (outcome_store (create_task now d st))) /\
  (forall now pk d, store_ok (outcome_store (update_task now pk d st))) /\
  (forall pk, store_ok (outcome_store (delete_task pk st))) /\
  (forall now ids d, store_ok (outcome_store (bulk_update_tasks now ids d st))).
Proof.
  intros Hok. repeat match goal with |- _ /\ _ => split end.
  - intros now d. now apply store_ok_create_task.
  - intros now pk d. unfold update_task, ORM.all.
    destruct (ORM.get pk (rows st)) as [task|] eqn:E; [|exact Hok].
    destruct (is_valid true d) as [errs|vd] eqn:Hv; [exact Hok|].
    simpl. apply store_ok_update; [exact Hok|].
    apply (updated_row_ok true d vd now task Hv).
    apply get_some in E. now apply Hok.
  - intros pk. unfold delete_task, ORM.all.
    destruct (ORM.get pk (rows st)) as [task|]; [|exact Hok].
    simpl. now apply store_ok_delete.
  - intros now ids d. now apply store_ok_bulk_update_tasks.
Qed.

(** ** Bulk status update *)

Lemma find_map_by_id (f : Task -> Task) (pk : Z) (l : list Task) :
  (forall t, id (f t) = id t) ->
  ORM.get pk (map f l) = option_map f (ORM.get pk l).
Proof.
  intros Hf. unfold ORM.get. induction l as [|t l IH]; simpl; [reflexivity|].
  rewrite Hf. destruct (Z.eqb (id t) pk); [reflexivity | exact IH].
Qed.

(** X4. bulk_update_status never raises and never validates: it returns
    the number of rows whose id is listed and overwrites the status of
    exactly those rows with the given text, leaving every other column
    (updated_at included), every other row and the key counter as they
    are.  An empty id list changes nothing; running it twice is the same
    as running it once.  With a status of the enumeration it keeps a
    well-formed table well-formed; with any other status and a selected
    row it leaves a row whose status is outside the enumeration. *)
Theorem bulk_update_status_spec (ids : list Z) (s : string) (st : Store) :
  let n := Z.of_nat (List.length (filter (ORM.id_in ids) (rows st))) in
  let st' :=
    mkStore (map (fun t => if ORM.id_in ids t then set_status s t else t)
                 (rows st))
            (next_id st) in
  bulk_update_status ids s st = Returns n st' /\
  0 <= n <= Z.of_nat (List.length (rows st)) /\
  (forall pk,
     ORM.get pk (rows st') =
     option_map (fun t => if ORM.id_in ids t then set_status s t else t)
                (ORM.get pk (rows st))) /\
  (ids = [] -> n = 0 /\ st' = st) /\
  bulk_update_status ids s st' = Returns n st' /\
  (store_ok st -> Py.str_in s valid_statuses = true -> store_ok st') /\
  (Py.str_in s valid_statuses = false -> 0 < n -> ~ choices_ok st').
Proof.
  intros n st'.
  assert (Hid : forall t,
            id (if ORM.id_in ids t then set_status s t else t) = id t).
  { intros t. destruct (ORM.id_in ids t); reflexivity. }
  assert (Hhit : forall t,
            ORM.id_in ids (if ORM.id_in ids t then set_status s t else t)
            = ORM.id_in ids t).
  { intros t. destruct (ORM.id_in ids t) eqn:E; exact E. }
  repeat match goal with |- _ /\ _ => split end.
  - reflexivity.
  - unfold n. lia.
  - unfold n. apply inj_le. apply filter_length_le.
  - intros pk. unfold st'. simpl. now apply find_map_by_id.
  - intros ->. split.
    + unfold n. rewrite (filter_none _ (rows st)) by reflexivity.
      reflexivity.
    + unfold st'. simpl. rewrite map_id. now destruct st.
  - unfold bulk_update_status, atomic, st'. simpl. f_equal.
    + unfold n. f_equal.
      induction (rows st) as [|t l IH]; simpl; [reflexivity|].
      rewrite Hhit. destruct (ORM.id_in ids t); simpl; now rewrite IH.
    + f_equal. rewrite map_map. apply map_ext. intros t.
      rewrite Hhit. destruct (ORM.id_in ids t); reflexivity.
  - intros Hok Hs. unfold st'. apply store_ok_map; [exact Hok | exact Hid |].
    intros t Ht. destruct Hok as (_ & _ & Hrows).
    destruct (Hrows t Ht) as (H1 & H2 & H3 & H4).
    destruct (ORM.id_in ids t); repeat split; assumption.
  - intros Hs Hn Hch.
    destruct (filter (ORM.id_in ids) (rows st)) as [|t l] eqn:E;
      [unfold n in Hn; try rewrite E in Hn; simpl in Hn; lia|].
    assert (Hin : In t (filter (ORM.id_in ids) (rows st)))
      by (rewrite E; now left).
    apply filter_In in Hin. destruct Hin as [Hin Ht].
    assert (Hin' : In (set_status s t) (rows st')).
    { unfold st'. simpl. apply in_map_iff. exists t. now rewrite Ht. }
    destruct (Hch _ Hin') as [_ H].
    change (Py.str_in s valid_statuses = true) in H. congruence.
Qed.

(** ** Creating *)

Lemma is_valid_inl_eq (partial : bool) (d : dict) errs :
  is_valid partial d = inl errs ->
  errs = fst (collect partial d writable_fields) /\ errs <> [].
Proof.
  unfold is_valid. destruct (collect partial d writable_fields) as [e ret].
  destruct e; [discriminate|]. intros H. inversion H. split; [reflexivity|].
  discriminate.
Qed.

Lemma error_keys_writable (partial : bool) (d : dict) errs k e :
  is_valid partial d = inl errs -> In (k, e) errs ->
  In k ["title"; "description"; "priority"; "status"; "due_date"].
Proof.
  intros H Hin. apply is_valid_inl_eq in H. destruct H as [-> _].
  apply collect_errors in Hin. destruct Hin as (f & Hf & <- & _).
  rewrite <- writable_fields_eq. now apply in_map.
Qed.

(** X5. create answers 201 exactly when the body supplies every required
    field and every supplied field is valid.  It then appends one row
    under the next primary key, with both timestamps at the time of the
    request and a title, priority and status that satisfy the validators,
    answers with the representation of that row and advances the key
    counter by one.  Otherwise it answers 400, leaves the store as it is,
    and reports a non-empty error object, keyed by writable fields only,
    beside the body it received. *)
Theorem create_spec now request st :
  let r := TaskViewSet_create now request st in
  (status_code (fst r) = HTTP_201_CREATED <->
     required_supplied (data request) /\ supplied_valid (data request)) /\
  (status_code (fst r) = HTTP_201_CREATED ->
     exists t,
       fst r = mkResponse (VDict (to_representation t)) HTTP_201_CREATED /\
       rows (snd r) = (rows st ++ [t])%list /\
       next_id (snd r) = next_id st + 1 /\
       id t = next_id st /\ created_at t = now /\ updated_at t = now /\
       row_ok t) /\
  (status_code (fst r) <> HTTP_201_CREATED ->
     snd r = st /\
     exists errs,
       fst r = mkResponse
                 (VDict [("errors", errors_value errs);
                         ("received_data", VDict (data request));
                         ("message", VStr "Validation failed")])
                 HTTP_400_BAD_REQUEST /\
       errs <> [] /\
       forall k e, In (k, e) errs ->
         In k ["title"; "description"; "priority"; "status"; "due_date"]).
Proof.
  intros r. unfold r, TaskViewSet_create.
  pose proof (is_valid_ok_iff false (data request)) as Hiff.
  rewrite all_ok_full in Hiff.
  destruct (is_valid false (data request)) as [errs|vd] eqn:Hv.
  - simpl. split; [|split].
    + split; [discriminate|]. intros H. apply Hiff in H.
      destruct H as [? H]. discriminate.
    + discriminate.
    + intros _. split; [reflexivity|]. exists errs.
      split; [reflexivity|]. split.
      * now apply is_valid_inl_eq in Hv.
      * intros k e. exact (error_keys_writable false (data request) errs k e Hv).
  - pose proof (created_row_ok (data request) vd now Hv) as Hrow.
    set (t0 := set_all (new_instance now) vd) in *.
    assert (Hc : created_at t0 = now)
      by (unfold t0; now rewrite set_all_created_at).
    assert (Hu : updated_at t0 = now).
    { unfold t0, set_all. clear.
      generalize (new_instance now) (eq_refl : updated_at (new_instance now) = now).
      induction vd as [|[k v] vd IH]; intros t Ht; simpl; [exact Ht|].
      apply IH. rewrite <- Ht. destruct v; simpl; split_eqb; reflexivity. }
    simpl. split; [|split].
    + split; [intros _; apply Hiff; eauto | reflexivity].
    + intros _. eexists. split; [reflexivity|].
      destruct Hrow as (H1 & H2 & H3 & H4).
      repeat split; assumption.
    + intros H. now contradiction H.
Qed.

(** ** Lookups by primary key *)

(** Without query parameters, and with unique primary keys, the handlers
    look a task up as the services do. *)
Lemma get_object_plain (body : dict) (pk : Z) (st : Store) :
  pk_unique st ->
  TaskViewSet_get_object (plain_request body) pk st = ORM.get pk (rows st).
Proof.
  intros Hpk. unfold TaskViewSet_get_object. rewrite get_queryset_eq.
  unfold matches. simpl. rewrite filter_true.
  apply get_permutation; [exact Hpk | apply order_by_perm].
Qed.

(** X6. Create then retrieve.  On a well-formed table, the id a successful
    create gives out was not in use before (retrieving it answered 404),
    and retrieving it afterwards answers 200 with exactly the body the
    create answered with. *)
Theorem create_then_retrieve now request st resp st' :
  store_ok st ->
  TaskViewSet_create now request st = (resp, st') ->
  status_code resp = HTTP_201_CREATED ->
  forall body,
    TaskViewSet_retrieve (plain_request body) (next_id st) st = not_found /\
    TaskViewSet_retrieve (plain_request body) (next_id st) st'
      = mkResponse (response_data resp) HTTP_200_OK.
Proof.
  intros Hok Hrun Hcode body. unfold TaskViewSet_create in Hrun.
  destruct (is_valid false (data request)) as [errs|vd] eqn:Hv;
    inversion Hrun; subst; [discriminate Hcode|].
  pose proof (store_ok_insert (set_all (new_instance now) vd) st Hok
                (created_row_ok (data request) vd now Hv)) as Hok'.
  unfold TaskViewSet_retrieve. split.
  - rewrite get_object_plain by apply Hok.
    replace (ORM.get (next_id st) (rows st)) with (@None Task); [reflexivity|].
    symmetry. apply get_none. intros t Ht.
    destruct Hok as (_ & Hid & _). apply Hid in Ht. lia.
  - rewrite get_object_plain by apply Hok'.
    set (t := fst (ORM.insert_row (set_all (new_instance now) vd) st)).
    assert (E : ORM.get (next_id st)
                  (rows (snd (ORM.insert_row (set_all (new_instance now) vd) st)))
                = Some t).
    { destruct Hok' as (Hpk' & _). refine (get_unique _ t Hpk' _).
      simpl. apply in_or_app. right. now left. }
    change (match
              ORM.get (next_id st)
                (rows (snd (ORM.insert_row (set_all (new_instance now) vd) st)))
            with
            | Some instance =>
                mkResponse (VDict (to_representation instance)) HTTP_200_OK
            | None => not_found
            end = mkResponse (VDict (to_representation t)) HTTP_200_OK).
    now rewrite E.
Qed.

(** X7. The three ways to create agree.  simple_create_task, the view
    set's create and the service's create_task accept exactly the same
    bodies and leave the same store; for an accepted body the two handlers
    describe the same new row, the first by its raw attributes and a
    message, the second by its serialized form; a rejected body is a
    ValidationError of the service, which the first handler prints under
    "error" and whose field errors the second reports under "errors". *)
Theorem create_paths_agree now request st :
  snd (simple_create_task now request st)
    = outcome_store (create_task now (data request) st) /\
  snd (TaskViewSet_create now request st)
    = outcome_store (create_task now (data request) st) /\
  (status_code (fst (simple_create_task now request st)) = 201 <->
   status_code (fst (TaskViewSet_create now request st)) = HTTP_201_CREATED) /\
  (forall t st',
     create_task now (data request) st = Returns t st' ->
     fst (TaskViewSet_create now request st)
       = mkResponse (VDict (to_representation t)) HTTP_201_CREATED /\
     exists d,
       fst (simple_create_task now request st) = mkResponse (VDict d) 201 /\
       dict_get "message" d = Some (VStr "Task created successfully!") /\
       forall name, In name Meta.fields -> dict_get name d = Some (getattr t name)) /\
  (forall e st',
     create_task now (data request) st = Raises e st' ->
     st' = st /\
     exists errs,
       e = ValidationError errs /\
       dict_get "error"
         match response_data (fst (simple_create_task now request st)) with
         | VDict d => d
         | _ => []
         end = Some (VStr (str_of_exn (ValidationError errs))) /\
       status_code (fst (simple_create_task now request st)) = 400 /\
       fst (TaskViewSet_create now request st)
         = mkResponse
             (VDict [("errors", errors_value errs);
                     ("received_data", VDict (data request));
                     ("message", VStr "Validation failed")])
             HTTP_400_BAD_REQUEST).
Proof.
  unfold simple_create_task, TaskViewSet_create, create_task.
  destruct (is_valid false (data request)) as [errs|vd] eqn:Hv; simpl.
  - split; [reflexivity|]. split; [reflexivity|].
    split; [split; discriminate|]. split.
    + intros t st' H. discriminate H.
    + intros e st' H. inversion H; subst. split; [reflexivity|].
      exists errs. repeat split.
  - split; [reflexivity|]. split; [reflexivity|].
    split; [split; reflexivity|]. split.
    + intros t st' H. inversion H; subst. split; [reflexivity|].
      eexists. split; [reflexivity|]. split; [reflexivity|].
      intros name Hn. simpl in Hn.
      destruct Hn as [<- | [<- | [<- | [<- | [<- | [<- | [<- | [<- | []]]]]]]]];
        reflexivity.
    + intros e st' H. discriminate H.
Qed.

(** X8. The service's update_task and the PATCH handler agree.  On a table
    with unique primary keys and a request without query parameters,
    partial_update answers 200 with the serialized task exactly when
    update_task returns that task, 400 with the field errors exactly when
    update_task raises the serializer's ValidationError, and 404 exactly
    when update_task raises its own "not found" ValidationError; both
    leave the same store. *)
Theorem update_task_agrees_with_patch now pk d st :
  pk_unique st ->
  TaskViewSet_partial_update now (plain_request d) pk st =
  match update_task now pk d st with
  | Returns t st' => (mkResponse (VDict (to_representation t)) HTTP_200_OK, st')
  | Raises (ValidationError errs) st' =>
      (mkResponse (errors_value errs) HTTP_400_BAD_REQUEST, st')
  | Raises _ st' => (not_found, st')
  end /\
  (ORM.get pk (rows st) = None ->
   update_task now pk d st =
   Raises (DjangoValidationError
             ("Task with id " ++ Py.str_of_int pk ++ " not found")) st).
Proof.
  intros Hpk. split.
  - unfold TaskViewSet_partial_update, perform_update, update_task, ORM.all.
    rewrite get_object_plain by exact Hpk. simpl.
    destruct (ORM.get pk (rows st)) as [task|]; [|reflexivity].
    destruct (is_valid true d); reflexivity.
  - intros H. unfold update_task, ORM.all. now rewrite H.
Qed.

Lemma get_perm_none (l l' : list Task) (pk : Z) :
  Permutation l l' -> ORM.get pk l = None -> ORM.get pk l' = None.
Proof.
  intros Hp H. apply get_none. intros t Ht.
  apply (proj1 (get_none pk l) H). eapply Permutation_in; [|exact Ht].
  now symmetry.
Qed.

(** X9. The service's delete_task and the DELETE handler agree on the
    store.  delete_task returns True exactly when a row has the id and
    then removes every row with that id and no other; when no row has the
    id it raises its "not found" ValidationError and changes nothing.
    After it has returned, a second call raises.  A DELETE without query
    parameters leaves the same store and answers 204 exactly when
    delete_task returns. *)
Theorem delete_task_spec pk st :
  outcome_store (delete_task pk st)
    = mkStore (filter (fun r => negb (Z.eqb (id r) pk)) (rows st)) (next_id st) /\
  ((exists t, In t (rows st) /\ id t = pk) ->
     delete_task pk st = Returns true (outcome_store (delete_task pk st)) /\
     delete_task pk (outcome_store (delete_task pk st))
       = Raises (DjangoValidationError
                   ("Task with id " ++ Py.str_of_int pk ++ " not found"))
           (outcome_store (delete_task pk st))) /\
  ((forall t, In t (rows st) -> id t <> pk) ->
     delete_task pk st
       = Raises (DjangoValidationError
                   ("Task with id " ++ Py.str_of_int pk ++ " not found")) st) /\
  (forall body,
     snd (TaskViewSet_destroy (plain_request body) pk st)
       = outcome_store (delete_task pk st) /\
     (status_code (fst (TaskViewSet_destroy (plain_request body) pk st))
        = HTTP_204_NO_CONTENT <->
      exists st', delete_task pk st = Returns true st')).
Proof.
  assert (Hmiss : forall s, (forall t, In t (rows s) -> id t <> pk) ->
            delete_task pk s
            = Raises (DjangoValidationError
                        ("Task with id " ++ Py.str_of_int pk ++ " not found")) s).
  { intros s H. unfold delete_task, ORM.all.
    now rewrite (proj2 (get_none pk (rows s)) H). }
  split; [apply delete_task_store|]. split; [|split; [exact (Hmiss st)|]].
  - intros (t & Hin & Hid). split.
    + unfold delete_task, ORM.all.
      destruct (ORM.get pk (rows st)) as [u|] eqn:E; [reflexivity|].
      exfalso. exact (proj1 (get_none pk (rows st)) E t Hin Hid).
    + apply Hmiss. rewrite delete_task_store. simpl. intros r Hr.
      apply filter_In in Hr. destruct Hr as [_ Hr].
      now apply negb_true_iff, Z.eqb_neq in Hr.
  - intros body. unfold TaskViewSet_destroy, TaskViewSet_get_object.
    rewrite get_queryset_eq. unfold matches. simpl. rewrite filter_true.
    rewrite delete_task_store.
    destruct (ORM.get pk (ORM.order_by_created_desc (rows st))) as [u|] eqn:E.
    + apply get_some in E. destruct E as [Hin <-].
      apply (proj1 (order_by_in _ _)) in Hin.
      simpl. split; [reflexivity|]. split; [|reflexivity].
      intros _. unfold delete_task, ORM.all.
      destruct (ORM.get (id u) (rows st)) as [w|] eqn:E'; [eauto|].
      exfalso. exact (proj1 (get_none _ _) E' u Hin eq_refl).
    + assert (E' : ORM.get pk (rows st) = None).
      { apply (get_perm_none (ORM.order_by_created_desc (rows st)));
          [symmetry; apply order_by_perm | exact E]. }
      simpl. split.
      * rewrite filter_id; [now destruct st|].
        intros r Hr. apply negb_true_iff, Z.eqb_neq.
        now apply (proj1 (get_none pk (rows st)) E').
      * split; [discriminate|]. intros [st' H].
        unfold delete_task, ORM.all in H. rewrite E' in H. discriminate.
Qed.

(** ** Detail routes and the query filters *)

Lemma get_object_none_iff request pk st :
  TaskViewSet_get_object request pk st = None <->
  forall t, In t (rows st) -> id t = pk -> matches request t = false.
Proof.
  unfold TaskViewSet_get_object. rewrite get_none. split.
  - intros H t Hin Hid. destruct (matches request t) eqn:E; [|reflexivity].
    exfalso. apply (H t); [|exact Hid].
    rewrite get_queryset_eq, order_by_in, filter_In. auto.
  - intros H t Hin Hid. apply get_queryset_matches in Hin.
    destruct Hin as [Hin Hm]. rewrite (H t Hin Hid) in Hm. discriminate.
Qed.

(** X10. The detail routes look a task up in the filtered queryset: what
    get_object finds is a row with the id of the URL that also passes the
    status and priority filters of the query string, and it finds nothing
    exactly when no row with that id passes them.  So a request that
    carries a non-empty status (or priority) parameter which no row with
    the id has is answered 404 by retrieve, update, partial_update and
    destroy, whether or not the id exists, and the store is left alone. *)
Theorem detail_routes_honour_filters request pk st :
  (forall t, TaskViewSet_get_object request pk st = Some t ->
     In t (rows st) /\ id t = pk /\ matches request t = true) /\
  (TaskViewSet_get_object request pk st = None <->
     forall t, In t (rows st) -> id t = pk -> matches request t = false) /\
  (forall v, v <> "" ->
     (GET_status request = Some v /\
      forall t, In t (rows st) -> id t = pk -> status t <> v) \/
     (GET_priority request = Some v /\
      forall t, In t (rows st) -> id t = pk -> priority t <> v) ->
     TaskViewSet_retrieve request pk st = not_found /\
     TaskViewSet_destroy request pk st = (not_found, st) /\
     forall now,
       TaskViewSet_update now request pk st = (not_found, st) /\
       TaskViewSet_partial_update now request pk st = (not_found, st)).
Proof.
  split; [|split].
  - intros t H. destruct (get_object_row _ _ _ _ H) as [Hin Hid].
    repeat split; auto. apply get_some in H. destruct H as [H _].
    now apply get_queryset_matches in H.
  - apply get_object_none_iff.
  - intros v Hv Hcase.
    assert (Hnone : TaskViewSet_get_object request pk st = None).
    { apply get_object_none_iff. intros t Hin Hid.
      destruct (matches request t) eqn:E; [|reflexivity].
      apply matches_iff in E. destruct E as [Es Ep].
      destruct Hcase as [[Hg Hne] | [Hg Hne]].
      - exfalso. apply (Hne t Hin Hid). now apply Es.
      - exfalso. apply (Hne t Hin Hid). now apply Ep. }
    unfold TaskViewSet_retrieve, TaskViewSet_destroy, TaskViewSet_update,
      TaskViewSet_partial_update, perform_update.
    rewrite Hnone. auto.
Qed.

(** ** Statistics *)

Lemma filter_length_mono {A : Type} (p q : A -> bool) (l : list A) :
  (forall x, In x l -> p x = true -> q x = true) ->
  (List.length (filter p l) <= List.length (filter q l))%nat.
Proof.
  induction l as [|x l IH]; intros H; simpl; [lia|].
  assert (IH' := IH (fun y Hy => H y (or_intror Hy))).
  destruct (p x) eqn:Ep.
  - rewrite (H x (or_introl eq_refl) Ep). simpl. lia.
  - destruct (q x); simpl; lia.
Qed.

Lemma status_in_enum (s : string) :
  Py.str_in s valid_statuses = true <->
  s = "pending" \/ s = "in_progress" \/ s = "completed".
Proof.
  unfold Py.str_in, valid_statuses. simpl.
  rewrite !orb_true_iff, !String.eqb_eq. intuition discriminate.
Qed.

Lemma priority_in_enum (s : string) :
  Py.str_in s valid_priorities = true <->
  s = "low" \/ s = "medium" \/ s = "high".
Proof.
  unfold Py.str_in, valid_priorities. simpl.
  rewrite !orb_true_iff, !String.eqb_eq. intuition discriminate.
Qed.

Lemma status_partition (l : list Task) :
  (forall t, In t l -> Py.str_in (status t) valid_statuses = true) ->
  (List.length (filter (fun t => String.eqb (status t) "pending") l) +
   List.length (filter (fun t => String.eqb (status t) "in_progress") l) +
   List.length (filter (fun t => String.eqb (status t) "completed") l)
   = List.length l)%nat.
Proof.
  induction l as [|t l IH]; intros H; [reflexivity|].
  assert (IH' := IH (fun u Hu => H u (or_intror Hu))).
  pose proof (proj1 (status_in_enum (status t)) (H t (or_introl eq_refl))) as Ht.
  simpl. destruct Ht as [E | [E | E]]; rewrite E; simpl; lia.
Qed.

(** X11. The statistics are consistent with each other.  On a table whose
    rows carry enumeration values the three status counts add up to the
    total; the count of high priority is never above the total, and never
    below the number of tasks the high-priority listing returns. *)
Theorem statistics_consistent (st : Store) :
  choices_ok st ->
  exists total pending in_progress completed high_priority,
    get_task_statistics st =
      [("total", VInt total); ("pending", VInt pending);
       ("in_progress", VInt in_progress); ("completed", VInt completed);
       ("high_priority", VInt high_priority)] /\
    total = pending + in_progress + completed /\
    0 <= pending /\ 0 <= in_progress /\ 0 <= completed /\
    Z.of_nat (List.length (get_high_priority_tasks st)) <= high_priority /\
    high_priority <= total.
Proof.
  intros Hok. do 5 eexists. split; [reflexivity|].
  unfold ORM.all. rewrite !count_length, filter_true.
  pose proof (status_partition (rows st) (fun t Ht => proj2 (Hok t Ht))) as Hp.
  repeat split; try lia.
  - apply inj_le. rewrite high_priority_eq.
    rewrite <- (Permutation_length (order_by_perm _)).
    apply filter_length_mono. intros t _ H. unfold high_open in H.
    now apply andb_true_iff in H.
  - apply inj_le. apply filter_length_le.
Qed.

(** X12. get_tasks_by_status returns exactly the rows with the given
    status, newest first.  For a non-empty status it is what the list
    handler returns for ?status= that value; it has no guard for the empty
    string, so on a table of enumeration values it returns nothing for the
    empty string and for every other text outside the enumeration. *)
Theorem get_tasks_by_status_spec (s : string) (st : Store) :
  let r := get_tasks_by_status s st in
  Permutation r (filter (fun t => String.eqb (status t) s) (rows st)) /\
  StronglySorted newest_first r /\
  (forall t, In t r <-> In t (rows st) /\ status t = s) /\
  (s <> "" ->
   forall body,
     TaskViewSet_list (mkRequest (Some s) None body) st
     = mkResponse (many_data r) HTTP_200_OK) /\
  (choices_ok st -> Py.str_in s valid_statuses = false -> r = []).
Proof.
  intros r. unfold r, get_tasks_by_status, ORM.filter_status, ORM.all.
  split; [symmetry; apply order_by_perm|].
  split; [apply order_by_sorted|].
  split; [|split].
  - intros t. rewrite order_by_in, filter_In, String.eqb_eq. tauto.
  - intros Hs body. rewrite list_eq. do 3 f_equal.
    apply filter_ext. intros t. unfold matches. simpl.
    destruct s; [contradiction|]. simpl. now rewrite andb_true_r.
  - intros Hok Hs. rewrite filter_none; [reflexivity|].
    intros t Ht. destruct (String.eqb_spec (status t) s) as [E|]; [|reflexivity].
    destruct (Hok t Ht) as [_ H]. congruence.
Qed.

(** ** The title, the choice fields and the keys of the body *)

Lemma title_field_of_text (partial : bool) (d : dict) (s : string) (v : value) :
  dict_get "title" d = Some (VStr s) ->
  validate_field partial d (build_field "title") = FValue v ->
  v = VStr (Py.strip s).
Proof.
  intros Hg Hv.
  destruct (title_entry_shape partial d v Hv) as (t & -> & _ & _ & Hsp).
  revert Hv. unfold validate_field, run_validation, run_empty_checks,
    to_internal_value. simpl. rewrite Hg.
  destruct (Py.all_space s) eqn:Es; [discriminate|].
  destruct ((200 <? String.length (Py.strip s))%nat); simpl; [discriminate|].
  destruct (has_nul (Py.strip s)); simpl; [discriminate|].
  rewrite (validate_title_not_blank _ (all_space_strip s Es)), strip_idem.
  intros H. now inversion H.
Qed.

Lemma title_field_too_long (partial : bool) (d : dict) (s : string) :
  dict_get "title" d = Some (VStr s) ->
  (200 < String.length (Py.strip s))%nat ->
  exists e, validate_field partial d (build_field "title") = FError e /\
            In (ErrCode "max_length") e.
Proof.
  intros Hg Hlen. unfold validate_field, run_validation, run_empty_checks,
    to_internal_value. simpl. rewrite Hg.
  destruct (Py.all_space s) eqn:Es.
  - apply strip_empty_iff in Es. rewrite Es in Hlen. simpl in Hlen. lia.
  - apply Nat.ltb_lt in Hlen. rewrite Hlen. simpl.
    eexists. split; [reflexivity | now left].
Qed.

Lemma title_field_not_text (partial : bool) (d : dict) (x : value) :
  dict_get "title" d = Some x ->
  (forall s, x <> VStr s) -> (forall n, x <> VInt n) ->
  exists e, validate_field partial d (build_field "title") = FError e.
Proof.
  intros Hg Hs Hn. unfold validate_field, run_validation, run_empty_checks,
    to_internal_value. simpl. rewrite Hg.
  destruct x; simpl; eauto.
  - exfalso. now apply (Hn n).
  - exfalso. now apply (Hs s).
Qed.

(** X13. The title a request supplies as text is stored stripped of
    surrounding whitespace on both sides: every validated title [t] is the
    one text such that the supplied text is [t] between two runs of
    whitespace and [t] neither starts nor ends with whitespace; it is its
    own stripped form, has at most 200 characters and passes validate_title
    unchanged (validating twice changes nothing).  The body
    {title: '  Buy milk  '} validates to {title: 'Buy milk'}, and create
    stores the row under that title.  A title longer than 200 characters
    after stripping, and a title that is neither text nor a number (null, a
    boolean, a list, an object), is an error under the key "title" in full
    and partial mode alike.  Texts are those of the model: sequences of
    code points below 256. *)
Theorem title_field_spec :
  (forall s t, validate_title s = Valid t -> validate_title t = Valid t) /\
  (forall partial d vd v,
     is_valid partial d = inr vd -> dict_get "title" vd = Some v ->
     exists t, v = VStr t /\ Py.strip t = t /\ (String.length t <= 200)%nat /\
               validate_title t = Valid t /\
               forall s, dict_get "title" d = Some (VStr s) ->
                 t = Py.strip s /\ stripped_of s t) /\
  (forall partial d s,
     dict_get "title" d = Some (VStr s) ->
     (200 < String.length (Py.strip s))%nat ->
     exists errs e, is_valid partial d = inl errs /\ In ("title", e) errs /\
                    In (ErrCode "max_length") e) /\
  (forall partial d x,
     dict_get "title" d = Some x ->
     (forall s, x <> VStr s) -> (forall n, x <> VInt n) ->
     exists errs e, is_valid partial d = inl errs /\ In ("title", e) errs) /\
  (forall s t, stripped_of s t <-> t = Py.strip s) /\
  (forall partial,
     is_valid partial [("title", VStr "  Buy milk  ")]
       = inr [("title", VStr "Buy milk")]) /\
  (forall now,
     rows (snd (TaskViewSet_create now
                  (plain_request [("title", VStr "  Buy milk  ")])
                  Fixtures.existing))
     = [Fixtures.existing_task;
        mkTask 2 "Buy milk" "" "medium" "pending" now now None]).
Proof.
  split; [|split; [|split; [|split; [|split; [|split]]]]].
  - intros s t H. apply validate_title_valid_inv in H.
    destruct H as (-> & _ & Hsp).
    rewrite (validate_title_not_blank _ Hsp). now rewrite strip_idem.
  - intros partial d vd v Hv Hg. apply dict_get_in in Hg.
    destruct (validated_entry partial d vd _ _ Hv Hg) as [_ Hf].
    destruct (title_entry_shape partial d v Hf) as (t & -> & Hlen & Hstrip & Hsp).
    exists t. repeat split; auto.
    + rewrite (validate_title_not_blank _ Hsp). now rewrite Hstrip.
    + pose proof (title_field_of_text partial d s _ H Hf) as E.
      now inversion E.
    + exact (title_field_stripped partial d s t H Hf).
  - intros partial d s Hg Hlen.
    destruct (title_field_too_long partial d s Hg Hlen) as (e & He & Hin).
    destruct (is_valid_inl partial d _ _ title_writable He) as (errs & E & Hk).
    exists errs, e. auto.
  - intros partial d x Hg Hs Hn.
    destruct (title_field_not_text partial d x Hg Hs Hn) as (e & He).
    destruct (is_valid_inl partial d _ _ title_writable He) as (errs & E & Hk).
    exists errs, e. auto.
  - apply stripped_of_iff.
  - intros [|]; reflexivity.
  - intros now. reflexivity.
Qed.

Lemma choice_field_rejects (partial : bool) (d : dict) (name : string)
  (choices : list string) (x : value) :
  kind (build_field name) = ChoiceField choices ->
  allow_null (build_field name) = false ->
  field_name (build_field name) = name ->
  dict_get name d = Some x ->
  (forall s, x = VStr s -> Py.str_in s choices = false) ->
  exists e, validate_field partial d (build_field name) = FError e.
Proof.
  intros Hk Hn Hname Hg Hbad. unfold validate_field, run_validation,
    run_empty_checks, to_internal_value.
  rewrite Hk, Hn, Hname, Hg.
  destruct x; simpl; eauto.
  rewrite (Hbad s eq_refl). eauto.
Qed.

(** X14. validate_priority and validate_status accept exactly the three
    values of their enumeration and pass them on unchanged.  In the
    serializer, a priority or status that is anything else (another text,
    an empty text, null, a number, a boolean, a list) is an error under
    the key of the field, on a full and on a partial update, and a
    priority or status that was validated is one of the three values. *)
Theorem choice_fields_spec :
  (forall v w, validate_priority v = Valid w <->
     w = v /\ (v = "low" \/ v = "medium" \/ v = "high")) /\
  (forall v w, validate_status v = Valid w <->
     w = v /\ (v = "pending" \/ v = "in_progress" \/ v = "completed")) /\
  (forall partial d x,
     dict_get "priority" d = Some x ->
     (forall s, x = VStr s -> ~ (s = "low" \/ s = "medium" \/ s = "high")) ->
     exists errs e, is_valid partial d = inl errs /\ In ("priority", e) errs) /\
  (forall partial d x,
     dict_get "status" d = Some x ->
     (forall s, x = VStr s ->
        ~ (s = "pending" \/ s = "in_progress" \/ s = "completed")) ->
     exists errs e, is_valid partial d = inl errs /\ In ("status", e) errs) /\
  (forall partial d vd v,
     is_valid partial d = inr vd ->
     (dict_get "priority" vd = Some v ->
        exists s, v = VStr s /\ (s = "low" \/ s = "medium" \/ s = "high")) /\
     (dict_get "status" vd = Some v ->
        exists s, v = VStr s /\
          (s = "pending" \/ s = "in_progress" \/ s = "completed"))).
Proof.
  split; [|split; [|split; [|split]]].
  - intros v w. unfold validate_priority. rewrite <- priority_in_enum.
    destruct (Py.str_in v valid_priorities); simpl; split.
    + intros H. inversion H. auto.
    + intros [-> _]. reflexivity.
    + discriminate.
    + intros [_ H]. discriminate.
  - intros v w. unfold validate_status. rewrite <- status_in_enum.
    destruct (Py.str_in v valid_statuses); simpl; split.
    + intros H. inversion H. auto.
    + intros [-> _]. reflexivity.
    + discriminate.
    + intros [_ H]. discriminate.
  - intros partial d x Hg Hbad.
    destruct (choice_field_rejects partial d "priority" valid_priorities x
                eq_refl eq_refl eq_refl Hg) as [e He].
    { intros s Hs. specialize (Hbad s Hs). rewrite <- priority_in_enum in Hbad.
      now destruct (Py.str_in s valid_priorities). }
    assert (Hw : In (build_field "priority") writable_fields) by (simpl; auto).
    destruct (is_valid_inl partial d _ _ Hw He) as (errs & E & Hk).
    exists errs, e. auto.
  - intros partial d x Hg Hbad.
    destruct (choice_field_rejects partial d "status" valid_statuses x
                eq_refl eq_refl eq_refl Hg) as [e He].
    { intros s Hs. specialize (Hbad s Hs). rewrite <- status_in_enum in Hbad.
      now destruct (Py.str_in s valid_statuses). }
    assert (Hw : In (build_field "status") writable_fields) by (simpl; auto 6).
    destruct (is_valid_inl partial d _ _ Hw He) as (errs & E & Hk).
    exists errs, e. auto.
  - intros partial d vd v Hv. split; intros Hg; apply dict_get_in in Hg.
    + destruct (validated_priority_ok _ _ _ _ Hv Hg) as (s & -> & H).
      exists s. split; [reflexivity | now apply priority_in_enum].
    + destruct (validated_status_ok _ _ _ _ Hv Hg) as (s & -> & H).
      exists s. split; [reflexivity | now apply status_in_enum].
Qed.

Lemma collect_ext (partial : bool) (d d' : dict) (fs : list field) :
  (forall f, In f fs -> dict_get (field_name f) d = dict_get (field_name f) d') ->
  collect partial d fs = collect partial d' fs.
Proof.
  induction fs as [|f fs IH]; intros H; simpl; [reflexivity|].
  rewrite IH by (intros g Hg; apply H; now right).
  unfold validate_field. now rewrite (H f (or_introl eq_refl)).
Qed.

(** X15. Validation reads the body only through the five writable keys:
    two bodies that agree on title, description, priority, status and
    due_date validate alike.  In particular a key outside these five (id,
    created_at, updated_at or an unknown key) can be added to a body
    without any effect on what update and partial_update answer and store,
    on whether create succeeds and on what it stores. *)
Theorem other_keys_ignored (k : string) (v : value) :
  ~ In k ["title"; "description"; "priority"; "status"; "due_date"] ->
  (forall partial d d',
     (forall name,
        In name ["title"; "description"; "priority"; "status"; "due_date"] ->
        dict_get name d = dict_get name d') ->
     is_valid partial d = is_valid partial d') /\
  (forall partial d, is_valid partial ((k, v) :: d) = is_valid partial d) /\
  (forall a b d now pk st,
     TaskViewSet_update now (mkRequest a b ((k, v) :: d)) pk st
       = TaskViewSet_update now (mkRequest a b d) pk st /\
     TaskViewSet_partial_update now (mkRequest a b ((k, v) :: d)) pk st
       = TaskViewSet_partial_update now (mkRequest a b d) pk st) /\
  (forall a b d now st,
     snd (TaskViewSet_create now (mkRequest a b ((k, v) :: d)) st)
       = snd (TaskViewSet_create now (mkRequest a b d) st) /\
     status_code (fst (TaskViewSet_create now (mkRequest a b ((k, v) :: d)) st))
       = status_code (fst (TaskViewSet_create now (mkRequest a b d) st))).
Proof.
  intros Hk.
  assert (Hext : forall partial d d',
            (forall name,
               In name ["title"; "description"; "priority"; "status"; "due_date"] ->
               dict_get name d = dict_get name d') ->
            is_valid partial d = is_valid partial d').
  { intros partial d d' H. unfold is_valid.
    rewrite (collect_ext partial d d'); [reflexivity|].
    intros f Hf. apply H. rewrite <- writable_fields_eq. now apply in_map. }
  assert (Hadd : forall partial d,
            is_valid partial ((k, v) :: d) = is_valid partial d).
  { intros partial d. apply Hext. intros name Hn. simpl.
    destruct (String.eqb_spec name k) as [-> | _]; [contradiction | reflexivity]. }
  split; [exact Hext|]. split; [exact Hadd|]. split.
  - intros a b d now pk st.
    unfold TaskViewSet_update, TaskViewSet_partial_update, perform_update,
      TaskViewSet_get_object, TaskViewSet_get_queryset. simpl.
    now rewrite !Hadd.
  - intros a b d now st. unfold TaskViewSet_create. simpl. rewrite Hadd.
    destruct (is_valid false d); split; reflexivity.
Qed.

End App.

(** ** Worked instances

    The application run with the [Epoch] instance on the stores of the test
    suite. *)

Lemma seed5_pk_unique : pk_unique Fixtures.seed5.
Proof.
  unfold pk_unique. simpl.
  repeat (constructor; [simpl; intuition discriminate|]). constructor.
Qed.

(** C1 on the five-task seed: ids 1 and 3 exist and 999 does not.  With a
    valid status both rows are updated and returned; with an invalid one
    the call raises and the seed is unchanged. *)
Lemma bulk_update_all_or_nothing_witness :
  bulk_update_tasks Epoch.parse_datetime 50 [1; 3; 999]
    [("status", VStr "in_progress")] Fixtures.seed5
  = Returns
      [mkTask 1 "High Priority 1" "" "high" "in_progress" 1 50 None;
       mkTask 3 "Medium Priority" "" "medium" "in_progress" 3 50 None]
      (mkStore
         [mkTask 1 "High Priority 1" "" "high" "in_progress" 1 50 None;
          mkTask 2 "High Priority 2" "" "high" "in_progress" 2 2 None;
          mkTask 3 "Medium Priority" "" "medium" "in_progress" 3 50 None;
          mkTask 4 "Low Priority" "" "low" "completed" 4 4 None;
          mkTask 5 "Completed High" "" "high" "completed" 5 5 None]
         6) /\
  bulk_update_tasks Epoch.parse_datetime 50 [1; 3; 999]
    [("status", VStr "archived")] Fixtures.seed5
  = Raises (ValidationError [("status", [ErrCode "invalid_choice"])])
      Fixtures.seed5.
Proof.
  split.
  - exact (proj1 (proj1
      (bulk_update_all_or_nothing Epoch.parse_datetime Epoch.isoformat
         Epoch.str_of_exn 50 [1; 3; 999] [("status", VStr "in_progress")]
         Fixtures.seed5 seed5_pk_unique)
      [("status", VStr "in_progress")] eq_refl)).
  - refine (proj1 (proj1 (proj2
      (bulk_update_all_or_nothing Epoch.parse_datetime Epoch.isoformat
         Epoch.str_of_exn 50 [1; 3; 999] [("status", VStr "archived")]
         Fixtures.seed5 seed5_pk_unique))
      [("status", [ErrCode "invalid_choice"])] eq_refl _)).
    simpl. discriminate.
Defined.

(** C10 on the five-task seed: no [task_ids], an invalid status. *)
Lemma bulk_update_no_ids_witness :
  TaskViewSet_bulk_update Epoch.parse_datetime Epoch.isoformat Epoch.str_of_exn
    50 (plain_request [("status", VStr "archived")]) Fixtures.seed5
  = Some (mkResponse (VDict [("updated_count", VInt 0); ("tasks", VList [])])
            HTTP_200_OK, Fixtures.seed5).
Proof.
  apply bulk_update_no_ids. left. reflexivity.
Defined.

(** C5 on the task of the test suite, with the body {status: 'completed'}:
    the full update answers 400 and changes nothing, the partial update
    answers 200. *)
Lemma update_validation_modes_witness :
  status_code
    (fst (TaskViewSet_update Epoch.parse_datetime Epoch.isoformat 50
            (plain_request [("status", VStr "completed")]) 1 Fixtures.existing))
  = HTTP_400_BAD_REQUEST /\
  snd (TaskViewSet_update Epoch.parse_datetime Epoch.isoformat 50
         (plain_request [("status", VStr "completed")]) 1 Fixtures.existing)
  = Fixtures.existing /\
  status_code
    (fst (TaskViewSet_partial_update Epoch.parse_datetime Epoch.isoformat 50
            (plain_request [("status", VStr "completed")]) 1 Fixtures.existing))
  = HTTP_200_OK.
Proof.
  destruct (update_validation_modes Epoch.parse_datetime Epoch.isoformat 50
              (plain_request [("status", VStr "completed")]) 1
              Fixtures.existing Fixtures.existing_task eq_refl)
    as (_ & Hput & _).
  split; [|split].
  - apply Hput. simpl. discriminate.
  - apply Hput. simpl. discriminate.
  - reflexivity.
Defined.

(** C7 on two titles: ' a  ' is passed on as 'a', stripped on both sides,
    and a title of three spaces is refused. *)
Lemma validate_title_spec_witness :
  validate_title " a  " = Valid "a" /\
  (exists msg, validate_title "   " = Invalid msg).
Proof.
  split.
  - apply (proj1 (proj2 (validate_title_spec Epoch.parse_datetime " a  "))).
    intros [H | H]; discriminate H.
  - apply (proj2 (proj1 (validate_title_spec Epoch.parse_datetime "   "))).
    right. reflexivity.
Defined.

Lemma existing_choices_ok : choices_ok Fixtures.existing.
Proof.
  intros t [<- | []]. split; reflexivity.
Qed.

(** C4 as stated fails on an empty filter value: the empty string is
    outside the status enumeration, and [?status=] returns the stored task
    instead of an empty list. *)
Lemma list_blank_filter_not_empty :
  choices_ok Fixtures.existing /\
  Py.str_in "" valid_statuses = false /\
  TaskViewSet_list Epoch.isoformat (mkRequest (Some "") None []) Fixtures.existing
  = mkResponse
      (VList [VDict (to_representation Epoch.isoformat Fixtures.existing_task)])
      HTTP_200_OK /\
  response_data
    (TaskViewSet_list Epoch.isoformat (mkRequest (Some "") None [])
       Fixtures.existing) <> VList [].
Proof.
  split; [exact existing_choices_ok|].
  repeat split. simpl. discriminate.
Qed.

(** C4 on the five-task seed: [?status=completed&priority=high] gives the
    one matching task, and an unknown status gives none. *)
Lemma list_filters_spec_witness :
  TaskViewSet_list Epoch.isoformat
    (mkRequest (Some "completed") (Some "high") []) Fixtures.seed5
  = mkResponse
      (many_data Epoch.isoformat
         [mkTask 5 "Completed High" "" "high" "completed" 5 5 None])
      HTTP_200_OK /\
  ORM.order_by_created_desc
    (filter (matches (mkRequest (Some "archived") None [])) (rows Fixtures.seed5))
  = [].
Proof.
  split.
  - exact (proj1 (list_filters_spec Epoch.isoformat
             (mkRequest (Some "completed") (Some "high") []) Fixtures.seed5)).
  - refine (proj2 (proj2 (proj2 (proj2 (proj2
             (list_filters_spec Epoch.isoformat
                (mkRequest (Some "archived") None []) Fixtures.seed5)))))
             _ "archived" _ _).
    + intros t Ht. simpl in Ht.
      destruct Ht as [<- | [<- | [<- | [<- | [<- | []]]]]]; split; reflexivity.
    + discriminate.
    + left. split; reflexivity.
Defined.

(** C9 as stated fails on [simple_create_task]: the object it returns for
    a created task has a ninth key. *)
Lemma simple_create_task_extra_key :
  fst (simple_create_task Epoch.parse_datetime Epoch.str_of_exn 50
         (plain_request [("title", VStr "Test Task")]) (mkStore [] 1))
  = mkResponse
      (VDict [("id", VInt 1); ("title", VStr "Test Task");
              ("description", VStr ""); ("priority", VStr "medium");
              ("status", VStr "pending"); ("created_at", VDatetime 50);
              ("updated_at", VDatetime 50); ("due_date", VNone);
              ("message", VStr "Task created successfully!")])
      201 /\
  ~ task_object
      (response_data
         (fst (simple_create_task Epoch.parse_datetime Epoch.str_of_exn 50
                 (plain_request [("title", VStr "Test Task")]) (mkStore [] 1)))).
Proof.
  split; [reflexivity|].
  intros (d & Hd & Hk). simpl in Hd. inversion Hd; subst. discriminate Hk.
Qed.

(** ** Worked instances of the further properties *)

Lemma existing_store_ok : store_ok Fixtures.existing.
Proof.
  split; [|split].
  - unfold pk_unique. simpl. repeat constructor. simpl. tauto.
  - intros t [<- | []]. reflexivity.
  - intros t [<- | []]. unfold row_ok. simpl. repeat split. lia.
Qed.

Lemma seed5_store_ok : store_ok Fixtures.seed5.
Proof.
  split; [exact seed5_pk_unique|]. split.
  - intros t Ht. simpl in Ht.
    destruct Ht as [<- | [<- | [<- | [<- | [<- | []]]]]]; reflexivity.
  - intros t Ht. simpl in Ht.
    destruct Ht as [<- | [<- | [<- | [<- | [<- | []]]]]];
      unfold row_ok; simpl; repeat split; lia.
Qed.

(** X2 on the store of the test suite: after a create and after a bulk
    update the table is still well-formed. *)
Lemma handlers_keep_store_ok_witness :
  store_ok
    (snd (TaskViewSet_create Epoch.parse_datetime Epoch.isoformat 50
            (plain_request [("title", VStr "  New Task ")]) Fixtures.existing)) /\
  store_ok
    (snd (TaskViewSet_destroy (plain_request []) 1 Fixtures.existing)).
Proof.
  pose proof (handlers_keep_store_ok Epoch.parse_datetime Epoch.isoformat
                Epoch.str_of_exn Fixtures.existing existing_store_ok)
    as (Hc & _ & _ & _ & Hd & _).
  split; [apply Hc | apply Hd].
Defined.

(** X3 on the five-task seed. *)
Lemma services_keep_store_ok_witness :
  store_ok
    (outcome_store
       (bulk_update_tasks Epoch.parse_datetime 50 [1; 3; 999]
          [("status", VStr "in_progress")] Fixtures.seed5)) /\
  store_ok (outcome_store (delete_task 4 Fixtures.seed5)).
Proof.
  pose proof (services_keep_store_ok Epoch.parse_datetime Epoch.isoformat
                Fixtures.seed5 seed5_store_ok)
    as (_ & _ & Hd & Hb).
  split; [apply Hb | apply Hd].
Defined.

(** X6 on the store of the test suite: the created task gets id 2. *)
Lemma create_then_retrieve_witness :
  TaskViewSet_retrieve Epoch.isoformat (plain_request []) 2 Fixtures.existing
    = not_found /\
  TaskViewSet_retrieve Epoch.isoformat (plain_request []) 2
    (snd (TaskViewSet_create Epoch.parse_datetime Epoch.isoformat 50
            (plain_request [("title", VStr "  New Task ")]) Fixtures.existing))
  = mkResponse
      (VDict [("id", VInt 2); ("title", VStr "New Task");
              ("description", VStr ""); ("priority", VStr "medium");
              ("status", VStr "pending"); ("created_at", VStr "50");
              ("updated_at", VStr "50"); ("due_date", VNone)])
      HTTP_200_OK.
Proof.
  exact (create_then_retrieve Epoch.parse_datetime Epoch.isoformat 50
           (plain_request [("title", VStr "  New Task ")]) Fixtures.existing
           _ _ existing_store_ok eq_refl eq_refl []).
Defined.

(** X8 on the store of the test suite. *)
Lemma update_task_agrees_with_patch_witness :
  TaskViewSet_partial_update Epoch.parse_datetime Epoch.isoformat 50
    (plain_request [("status", VStr "archived")]) 1 Fixtures.existing
  = (mkResponse (VDict [("status", VList [VStr "invalid_choice"])])
       HTTP_400_BAD_REQUEST, Fixtures.existing) /\
  update_task Epoch.parse_datetime 50 7 [("status", VStr "archived")]
    Fixtures.existing
  = Raises (DjangoValidationError "Task with id 7 not found") Fixtures.existing.
Proof.
  pose proof (update_task_agrees_with_patch Epoch.parse_datetime Epoch.isoformat
                50 1 [("status", VStr "archived")] Fixtures.existing
                (proj1 existing_store_ok)) as [H1 _].
  pose proof (update_task_agrees_with_patch Epoch.parse_datetime Epoch.isoformat
                50 7 [("status", VStr "archived")] Fixtures.existing
                (proj1 existing_store_ok)) as [_ H2].
  split; [exact H1 | exact (H2 eq_refl)].
Defined.

Lemma seed5_choices_ok : choices_ok Fixtures.seed5.
Proof.
  intros t Ht. destruct seed5_store_ok as (_ & _ & H).
  destruct (H t Ht) as (_ & _ & Hp & Hs). auto.
Qed.

(** X11 on the five-task seed. *)
Lemma statistics_consistent_witness :
  exists total pending in_progress completed high_priority,
    get_task_statistics Fixtures.seed5 =
      [("total", VInt total); ("pending", VInt pending);
       ("in_progress", VInt in_progress); ("completed", VInt completed);
       ("high_priority", VInt high_priority)] /\
    total = pending + in_progress + completed /\
    0 <= pending /\ 0 <= in_progress /\ 0 <= completed /\
    Z.of_nat (List.length (get_high_priority_tasks Fixtures.seed5))
      <= high_priority /\
    high_priority <= total.
Proof.
  exact (statistics_consistent Epoch.parse_datetime Fixtures.seed5
           seed5_choices_ok).
Defined.

(** X15 for the read-only key [id]. *)
Lemma other_keys_ignored_witness :
  TaskViewSet_partial_update Epoch.parse_datetime Epoch.isoformat 50
    (plain_request [("id", VInt 99); ("status", VStr "completed")]) 1
    Fixtures.existing
  = TaskViewSet_partial_update Epoch.parse_datetime Epoch.isoformat 50
      (plain_request [("status", VStr "completed")]) 1 Fixtures.existing.
Proof.
  assert (H : ~ In "id" ["title"; "description"; "priority"; "status"; "due_date"]).
  { simpl. intuition discriminate. }
  pose proof (other_keys_ignored Epoch.parse_datetime Epoch.isoformat
                "id" (VInt 99) H) as (_ & _ & Hu & _).
  exact (proj2 (Hu None None [("status", VStr "completed")] 50 1
                  Fixtures.existing)).
Defined.
